(** * Homework: HistoryDict (Task 4.2) and the RSS feed parsers

    A shallow embedding of the two Python sources of the repository,

    - [AleksandraKhorosheva/Task2.py]   (class [HistoryDict]),
    - [rss_parse/parse/rss_parser.py]   (classes [RssParser], [RssJsonParser],
      [RssXmlParser], [RssUrlParser]),

    together with the properties the specification states about them.

    Python values are dynamically typed, so the decoded XML tree is a tagged
    value ([pyval]); every operation that Python resolves at run time
    (subscripting, [.get], iteration, [.startswith], truthiness) is written
    out with the exception it raises on a value of the wrong shape. *)

From Stdlib Require Import ZArith String Ascii List Lia.
From stdpp Require Import base list strings gmap.

(** ** Python run-time model *)

Module Python.

(** The exceptions that the two sources raise, catch or let through. *)
Inductive exn : Type :=
| ParsingException (msg : string)
| KeyError (key : string)
| TypeError
| AttributeError
| ExpatError
| InvalidSchema
| InvalidURL
| MissingSchema
| ConnectionError
| Exception
| OSError.

Inductive result (A : Type) : Type :=
| Ok (a : A)
| Raise (e : exn).
Arguments Ok {A} a.
Arguments Raise {A} e.

(** What [xmltodict] hands back: [None] for an empty element, a string for
    text and attributes, a list for a repeated element, a dict (in document
    order) for an element with children or attributes. *)
#[local] Set Warnings "-register-all".
Inductive pyval : Type :=
| PNone
| PStr (s : string)
| PList (l : list pyval)
| PDict (d : list (string * pyval)).

(** [d[key]] on the entries of a dict: the entry stored under [key]. *)
Fixpoint dict_lookup (key : string) (d : list (string * pyval)) : option pyval :=
  match d with
  | [] => None
  | (k, v) :: rest => if String.eqb k key then Some v else dict_lookup key rest
  end.

(** [bool(v)]: [None] and the empty string, list and dict are false. *)
Definition truthy (v : pyval) : bool :=
  match v with
  | PNone => false
  | PStr s => negb (String.eqb s "")
  | PList l => match l with [] => false | _ :: _ => true end
  | PDict d => match d with [] => false | _ :: _ => true end
  end.

(** [v[key]] with a string key. *)
Definition getitem (v : pyval) (key : string) : result pyval :=
  match v with
  | PDict d =>
      match dict_lookup key d with
      | Some x => Ok x
      | None => Raise (KeyError key)
      end
  | PNone | PStr _ | PList _ => Raise TypeError
  end.

(** [v.get(key, default)]: only a dict has the method. *)
Definition get (v : pyval) (key : string) (default : pyval) : result pyval :=
  match v with
  | PDict d =>
      match dict_lookup key d with
      | Some x => Ok x
      | None => Ok default
      end
  | PNone | PStr _ | PList _ => Raise AttributeError
  end.

(** [v.startswith(p)]: only a string has the method. *)
Definition startswith (v : pyval) (p : string) : result bool :=
  match v with
  | PStr s => Ok (String.prefix p s)
  | PNone | PList _ | PDict _ => Raise AttributeError
  end.

(** [for x in v]: the elements of a list, the keys of a dict, the
    characters of a string; [None] is not iterable. *)
Definition iter (v : pyval) : result (list pyval) :=
  match v with
  | PList l => Ok l
  | PDict d => Ok (map (fun kv => PStr (fst kv)) d)
  | PStr s => Ok (map (fun c => PStr (String c EmptyString)) (list_ascii_of_string s))
  | PNone => Raise TypeError
  end.

(** [l[start:]] for an integer [start]: a negative start counts from the
    end, and both ends are clamped to the list. *)
Definition slice_from {A : Type} (start : Z) (l : list A) : list A :=
  let n := Z.of_nat (length l) in
  let s := if (start <? 0)%Z then Z.max 0 (start + n) else Z.min start n in
  drop (Z.to_nat s) l.

End Python.

(** ** Task2.py: [HistoryDict] *)

Module Task2.
Import Python.

Section HistoryDict.
Context {K : Type} `{Countable K} {V : Type}.

Record HistoryDict : Type := mkHistoryDict {
  dict : gmap K V;
  count : Z;
  history : list K
}.

(** [__init__(self, dict, count=10)] *)
Definition init (d : gmap K V) (cnt : option Z) : HistoryDict :=
  {| dict := d; count := default 10%Z cnt; history := [] |}.

(** [set_value(self, key, value)] *)
Definition set_value (self : HistoryDict) (key : K) (value : V) : HistoryDict :=
  let dict' := <[key := value]> (dict self) in
  let appended := history self ++ [key] in
  {| dict := dict';
     count := count self;
     history := slice_from (- count self) appended |}.

(** [get_history(self)] *)
Definition get_history (self : HistoryDict) : list K := history self.

(** A sequence of [set_value] calls, oldest first. *)
Definition set_values (self : HistoryDict) (calls : list (K * V)) : HistoryDict :=
  fold_left (fun s kv => set_value s (fst kv) (snd kv)) calls self.

(** The last [n] elements of a list. *)
Definition last_n (n : nat) (l : list K) : list K := drop (length l - n) l.

End HistoryDict.
Arguments HistoryDict K {_ _} V.

End Task2.

(** ** rss_parser.py: the feed parsers *)

Module RssParse.
Import Python.

(** *** Exceptions and the message sink as a monad *)

#[export] Instance result_ret : MRet result := fun _ a => Ok a.
#[export] Instance result_bind : MBind result := fun _ _ f m =>
  match m with
  | Ok a => f a
  | Raise e => Raise e
  end.

(** Modelled from the spec: the message sink ([rss_parse/utils/messaging_utils.py]
    is not among the sources).  A sink is an object with one method,
    [add_message(text)]; what it does with the text is its own business, so it
    is a transformer of the lines shown so far. *)
Record MessageConsumer : Type := {
  add_message_impl : string -> list string -> list string
}.

(** Modelled from the spec: [MESSAGE_CONSUMER_NOOP], the sink that drops
    every message. *)
Definition MESSAGE_CONSUMER_NOOP : MessageConsumer :=
  {| add_message_impl := fun _ shown => shown |}.

(** A sink that keeps every message, in order. *)
Definition MESSAGE_CONSUMER_RECORD : MessageConsumer :=
  {| add_message_impl := fun text shown => shown ++ [text] |}.

(** The value bound to [mc] / [self._mc]: Python's [None] or a sink object. *)
Inductive mc_value : Type :=
| McNone
| McSink (c : MessageConsumer).

(** A computation that may raise and may talk to the sink; the state is
    what the sink has shown so far. *)
Definition M (A : Type) : Type := list string -> result A * list string.

#[export] Instance M_ret : MRet M := fun _ a shown => (Ok a, shown).
#[export] Instance M_bind : MBind M := fun _ _ f m shown =>
  match m shown with
  | (Ok a, shown') => f a shown'
  | (Raise e, shown') => (Raise e, shown')
  end.

Definition lift {A : Type} (r : result A) : M A := fun shown => (r, shown).

Definition raise {A : Type} (e : exn) : M A := lift (Raise e).

(** [try: body  except ...:], where [clauses e] is the handler of the first
    [except] clause that matches [e], if any. *)
Definition try_except {A : Type} (body : M A) (clauses : exn -> option (M A)) : M A :=
  fun shown =>
    match body shown with
    | (Ok a, shown') => (Ok a, shown')
    | (Raise e, shown') =>
        match clauses e with
        | Some handler => handler shown'
        | None => (Raise e, shown')
        end
    end.

(** [mc.add_message(text)]: [None] has no such attribute. *)
Definition add_message (mc : mc_value) (text : string) : M unit :=
  match mc with
  | McNone => raise AttributeError
  | McSink c => fun shown => (Ok tt, add_message_impl c text shown)
  end.

(** The messages [texts] delivered to sink [c], one after the other. *)
Definition deliver (c : MessageConsumer) (texts : list string) (shown : list string)
  : list string :=
  fold_left (fun acc text => add_message_impl c text acc) texts shown.

(** *** Feed and items *)

(** Modelled from the spec: [to_date] returns a timestamp or [None]; a
    timestamp is kept as seconds since the epoch. *)
Definition datetime : Type := Z.

(** Modelled from the spec: [RssItem] and [RssFeed] of
    [rss_parse/parse/rss_feed.py], which is not among the sources.  The
    constructor call [RssItem(title, description, publication_date, link,
    image_url)] leaves [source] unset. *)
Record RssItem : Type := mkRssItem {
  title : option string;
  description : pyval;
  publication_date : option datetime;
  link : pyval;
  image_url : pyval;
  source : option string
}.

Definition new_RssItem (title : option string) (description : pyval)
    (publication_date : option datetime) (link image_url : pyval) : RssItem :=
  mkRssItem title description publication_date link image_url None.

Record RssFeed : Type := mkRssFeed {
  rss_items : list RssItem
}.

(** [item.source = s] *)
Definition set_source (s : string) (item : RssItem) : RssItem :=
  mkRssItem (title item) (description item) (publication_date item)
            (link item) (image_url item) (Some s).

(** The key constants of [rss_parse/parse/rss_keys.py], which is not among
    the sources; the parsers are written against any choice of them. *)
Record rss_keys : Type := {
  RSS_ROOT : string;
  RSS_CHANNEL : string;
  RSS_ITEMS : string;
  RSS_ITEM_TITLE : string;
  RSS_ITEM_DESCRIPTION : string;
  RSS_ITEM_PUB_DATE : string;
  RSS_ITEM_LINK : string;
  RSS_IMAGE_ROOT : string;
  RSS_IMAGE_ROOT_MEDIA_CONTENT : string;
  RSS_IMAGE_ROOT_MEDIA_THUMBNAIL : string;
  RSS_IMAGE_ROOT_ENCLOSURE : string;
  RSS_IMAGE_URL_ATTR : string
}.

(** Modelled from the spec: the names the spec gives to these keys (root,
    channel, repeated item elements, [title], [description], [pubDate],
    [link], [image], [media:content], [media:thumbnail], [enclosure]), with
    attributes spelled the way the source spells ['@type']. *)
Definition spec_keys : rss_keys :=
  {| RSS_ROOT := "rss";
     RSS_CHANNEL := "channel";
     RSS_ITEMS := "item";
     RSS_ITEM_TITLE := "title";
     RSS_ITEM_DESCRIPTION := "description";
     RSS_ITEM_PUB_DATE := "pubDate";
     RSS_ITEM_LINK := "link";
     RSS_IMAGE_ROOT := "image";
     RSS_IMAGE_ROOT_MEDIA_CONTENT := "media:content";
     RSS_IMAGE_ROOT_MEDIA_THUMBNAIL := "media:thumbnail";
     RSS_IMAGE_ROOT_ENCLOSURE := "enclosure";
     RSS_IMAGE_URL_ATTR := "@url" |}.

(** Truth value of a string-or-[None] and of a timestamp-or-[None]: a
    timestamp object is always true. *)
Definition truthy_str (s : option string) : bool :=
  match s with
  | None => false
  | Some s => negb (String.eqb s "")
  end.

Definition truthy_date (d : option datetime) : bool :=
  match d with
  | None => false
  | Some _ => true
  end.

(** [RssXmlParser.__validate_correctness]: [item.title and
    item.publication_date and item.link].  Python's [and] yields one of its
    operands; the only use of the result is as the condition of an [if], so
    it is kept as its truth value. *)
Definition validate_correctness (item : RssItem) : bool :=
  truthy_str (title item) && truthy_date (publication_date item) && truthy (link item).

(** *** The parsers *)

(** What [requests.get] returns, as far as the source looks at it. *)
Record Response : Type := {
  status_code : Z;
  text : string
}.

Section Parsers.

(** The collaborators that are not among the sources: the key constants,
    [xmltodict.parse], and the two helpers of
    [rss_parse/utils/parsing_utils.py].

    Modelled from the spec: [sanitize_text] and [to_date] never raise;
    [sanitize_text] returns a string or [None], [to_date] a timestamp or
    [None]. *)
Context (keys : rss_keys).
Context (xmltodict_parse : string -> result pyval).
Context (sanitize_text : pyval -> option string).
Context (to_date : pyval -> option datetime).

(** [RssParser.__init__(self, mc=MESSAGE_CONSUMER_NOOP)]; the argument is
    [None] here when the caller leaves it out.  The result is [self._mc]. *)
Definition RssParser_init (mc : option mc_value) : mc_value :=
  let mc := default (McSink MESSAGE_CONSUMER_NOOP) mc in
  mc.

(** **** RssXmlParser *)

Record RssXmlParser : Type := {
  xml_mc : mc_value;
  xml_feed : string
}.

(** [RssXmlParser.__init__(self, xml_feed, mc=None)] *)
Definition RssXmlParser_init (xml_feed : string) (mc : option mc_value) : RssXmlParser :=
  let mc := default McNone mc in
  let _mc := RssParser_init (Some mc) in
  let _mc := mc in
  {| xml_mc := _mc; xml_feed := xml_feed |}.

(** [RssXmlParser.parse_image] *)
Definition parse_image (rss_item_dict : pyval) : result pyval :=
  image_url ← get rss_item_dict (RSS_IMAGE_ROOT keys) PNone;
  image_url ←
    (if negb (truthy image_url) then
       media ← get rss_item_dict (RSS_IMAGE_ROOT_MEDIA_CONTENT keys) (PDict []);
       get media (RSS_IMAGE_URL_ATTR keys) PNone
     else Ok image_url);
  image_url ←
    (if negb (truthy image_url) then
       media ← get rss_item_dict (RSS_IMAGE_ROOT_MEDIA_THUMBNAIL keys) (PDict []);
       get media (RSS_IMAGE_URL_ATTR keys) PNone
     else Ok image_url);
  image_url ←
    (if negb (truthy image_url) then
       enclosure ← get rss_item_dict (RSS_IMAGE_ROOT_ENCLOSURE keys) (PDict []);
       type ← get enclosure "@type" (PStr "");
       is_image ← startswith type "image/";
       if is_image : bool then get enclosure (RSS_IMAGE_URL_ATTR keys) PNone
       else Ok image_url
     else Ok image_url);
  Ok image_url.

(** [RssXmlParser.parse_item] *)
Definition parse_item (rss_item_dict : pyval) : result RssItem :=
  raw_title ← get rss_item_dict (RSS_ITEM_TITLE keys) PNone;
  let title := sanitize_text raw_title in
  description ← get rss_item_dict (RSS_ITEM_DESCRIPTION keys) PNone;
  raw_date ← get rss_item_dict (RSS_ITEM_PUB_DATE keys) PNone;
  let publication_date := to_date raw_date in
  link ← get rss_item_dict (RSS_ITEM_LINK keys) PNone;
  image_url ← parse_image rss_item_dict;
  Ok (new_RssItem title description publication_date link image_url).

Definition SKIPPED : string :=
  "Item skipped because it is invalid (required fields are absent)".

(** The [for] loop of [RssXmlParser.parse_items], with [res] the list
    built so far. *)
Fixpoint parse_items_loop (mc : mc_value) (rss_items_raw : list pyval)
    (res : list RssItem) : M (list RssItem) :=
  match rss_items_raw with
  | [] => mret res
  | rss_item_dict :: rest =>
      item ← lift (parse_item rss_item_dict);
      if validate_correctness item then
        parse_items_loop mc rest (res ++ [item])
      else
        add_message mc SKIPPED ;;
        parse_items_loop mc rest res
  end.

(** [RssXmlParser.parse_items] *)
Definition parse_items (self : RssXmlParser) (rss_feed_dict : pyval) : M (list RssItem) :=
  rss_items_raw ← lift (channel ← getitem rss_feed_dict (RSS_CHANNEL keys);
                        getitem channel (RSS_ITEMS keys));
  elements ← lift (iter rss_items_raw);
  parse_items_loop (xml_mc self) elements [].

Definition NOT_A_FEED : string := "Source doesn't contain a valid RSS Feed.".

(** [RssXmlParser.parse] *)
Definition xml_parse (self : RssXmlParser) : M RssFeed :=
  add_message (xml_mc self) "Parsing RSS Feed by elements" ;;
  rss_feed_dict ←
    try_except
      (lift (tree ← xmltodict_parse (xml_feed self); getitem tree (RSS_ROOT keys)))
      (fun e => match e with
                | ExpatError | KeyError _ => Some (raise (ParsingException NOT_A_FEED))
                | _ => None
                end);
  add_message (xml_mc self) "Parsing items info" ;;
  rss_items ← parse_items self rss_feed_dict;
  add_message (xml_mc self) "Parsing finished" ;;
  mret (mkRssFeed rss_items).

(** **** RssUrlParser *)

Context (requests_get : string -> result Response).

Record RssUrlParser : Type := {
  url_mc : mc_value;
  url_source : string
}.

(** [RssUrlParser.__init__(self, source, mc=None)] *)
Definition RssUrlParser_init (source : string) (mc : option mc_value) : RssUrlParser :=
  let mc := default McNone mc in
  let _mc := RssParser_init (Some mc) in
  let _mc := mc in
  {| url_mc := _mc; url_source := source |}.

(** [RssUrlParser.parse] *)
Definition url_parse (self : RssUrlParser) : M RssFeed :=
  rss_raw_xml ←
    try_except
      (add_message (url_mc self) ("Reaching out to " +:+ url_source self) ;;
       f ← lift (requests_get (url_source self));
       if negb (status_code f =? 200)%Z then raise Exception
       else mret (text f))
      (fun e => match e with
                | InvalidSchema | InvalidURL | MissingSchema =>
                    Some (add_message (url_mc self)
                            "Encountered an error during reading RSS Feed from URL" ;;
                          raise (ParsingException ("Invalid source URL: " +:+ url_source self)))
                | _ =>
                    Some (add_message (url_mc self) "Unable to connect" ;;
                          raise (ParsingException ("Unable to connect to " +:+ url_source self)))
                end);
  let rss_xml_parser := RssXmlParser_init rss_raw_xml (Some (url_mc self)) in
  feed ← xml_parse rss_xml_parser;
  mret (mkRssFeed (map (set_source (url_source self)) (rss_items feed))).

(** **** RssJsonParser *)

(** The file system as [os.path.exists] and [open(...).read()] see it: no
    entry, or an entry whose reading gives a text or raises. *)
Context (files : string -> option (result string)).

(** [RSS_FEED_JSON_MAPPER.from_json] of [rss_parse/parse/rss_mapper.py],
    which is not among the sources. *)
Context (from_json : string -> result RssFeed).

Record RssJsonParser : Type := {
  json_mc : mc_value;
  json_file_name : string
}.

(** [RssJsonParser.__init__(self, file_name, mc=None)] *)
Definition RssJsonParser_init (file_name : string) (mc : option mc_value) : RssJsonParser :=
  let mc := default McNone mc in
  let _mc := RssParser_init (Some mc) in
  let _mc := mc in
  {| json_mc := _mc; json_file_name := file_name |}.

(** [RssJsonParser.parse] *)
Definition json_parse (self : RssJsonParser) : M RssFeed :=
  match files (json_file_name self) with
  | None => mret (mkRssFeed [])
  | Some content =>
      lift (rss_json ← content; from_json rss_json)
  end.

End Parsers.

End RssParse.

(** ** Sample inputs *)

Module Samples.
Import Python RssParse.

(** Feed documents, each with the tree [xmltodict.parse] decodes it to:
    a feed whose root has no channel, the one-item feed of the
    specification, and a feed of three items whose second has no link. *)
Definition doc_no_channel : string := "<rss><title>t</title></rss>".

Definition tree_no_channel : pyval :=
  PDict [("rss", PDict [("title", PStr "t")])].

Definition doc_one_item : string :=
  "<rss><channel><item><title>T</title><link>L</link><pubDate>Mon, 01 Jan 2024 00:00:00 GMT</pubDate></item></channel></rss>".

Definition node_T : pyval :=
  PDict [("title", PStr "T"); ("link", PStr "L");
         ("pubDate", PStr "Mon, 01 Jan 2024 00:00:00 GMT")].

Definition tree_one_item : pyval :=
  PDict [("rss", PDict [("channel", PDict [("item", node_T)])])].

Definition doc_three_items : string :=
  "<rss><channel><item><title>T</title><link>L</link><pubDate>Mon, 01 Jan 2024 00:00:00 GMT</pubDate></item><item><title>U</title><pubDate>Mon, 01 Jan 2024 00:00:00 GMT</pubDate></item><item><title>V</title><link>M</link><pubDate>Mon, 01 Jan 2024 00:00:00 GMT</pubDate><enclosure url='v.png' type='image/png'/></item></channel></rss>".

Definition node_U : pyval :=
  PDict [("title", PStr "U");
         ("pubDate", PStr "Mon, 01 Jan 2024 00:00:00 GMT")].

Definition node_V : pyval :=
  PDict [("title", PStr "V"); ("link", PStr "M");
         ("pubDate", PStr "Mon, 01 Jan 2024 00:00:00 GMT");
         ("enclosure", PDict [("@url", PStr "v.png"); ("@type", PStr "image/png")])].

Definition tree_three_items : pyval :=
  PDict [("rss", PDict [("channel", PDict [("item", PList [node_T; node_U; node_V])])])].

(** [xmltodict.parse] on the documents above; any other text is taken not
    to be XML. *)
Definition sample_xmltodict_parse (doc : string) : result pyval :=
  if String.eqb doc doc_no_channel then Ok tree_no_channel
  else if String.eqb doc doc_one_item then Ok tree_one_item
  else if String.eqb doc doc_three_items then Ok tree_three_items
  else Raise ExpatError.

(** Stand-ins for the two helpers: text is kept as it is, and the one date
    of the documents above is 2024-01-01T00:00:00Z. *)
Definition sample_sanitize_text (raw : pyval) : option string :=
  match raw with
  | PStr s => Some s
  | _ => None
  end.

Definition sample_to_date (raw : pyval) : option datetime :=
  match raw with
  | PStr s => if String.eqb s "Mon, 01 Jan 2024 00:00:00 GMT" then Some 1704067200%Z else None
  | _ => None
  end.

(** Item nodes for image extraction: a thumbnail whose url attribute is
    empty, and an empty [media:content] element (decoded to [None]). *)
Definition node_empty_thumbnail : pyval :=
  PDict [("media:thumbnail", PDict [("@url", PStr "")])].

Definition node_null_media : pyval :=
  PDict [("media:content", PNone)].

(** Sample sources for the URL adapter. *)
Definition sample_requests_get (url : string) : result Response :=
  if String.eqb url "http://feeds.example/three" then
    Ok {| status_code := 200; text := doc_three_items |}
  else if String.eqb url "http://feeds.example/missing" then
    Ok {| status_code := 404; text := "Not Found" |}
  else if String.eqb url "not a url" then Raise MissingSchema
  else Raise ConnectionError.

(** Sample snapshot files: one file holding one item that has no title. *)
Definition untitled_item : RssItem :=
  mkRssItem None PNone None PNone PNone None.

Definition sample_files (path : string) : option (result string) :=
  if String.eqb path "feed.json" then Some (Ok "snapshot") else None.

Definition sample_from_json (rss_json : string) : result RssFeed :=
  if String.eqb rss_json "snapshot" then Ok (mkRssFeed [untitled_item])
  else Raise (ParsingException "bad snapshot").

End Samples.

(** ** Vocabulary of the specification *)

Module RssSpec.
Import Python RssParse.

(** A value is non-empty when it is neither [None] nor an empty string,
    list or mapping. *)
Definition non_empty (v : pyval) : Prop :=
  v <> PNone /\ v <> PStr "" /\ v <> PList [] /\ v <> PDict [].

(** A sub-object of an item node that is either absent or a mapping. *)
Definition absent_or_mapping (key : string) (d : list (string * pyval)) : bool :=
  match dict_lookup key d with
  | None | Some (PDict _) => true
  | Some _ => false
  end.

(** The declared type of the enclosure, when there is one, is a string. *)
Definition enclosure_type_is_text (keys : rss_keys) (d : list (string * pyval)) : bool :=
  match dict_lookup (RSS_IMAGE_ROOT_ENCLOSURE keys) d with
  | Some (PDict enclosure) =>
      match dict_lookup "@type" enclosure with
      | None | Some (PStr _) => true
      | Some _ => false
      end
  | _ => true
  end.

(** The url attribute of a sub-object; [None] when the sub-object or the
    attribute is absent. *)
Definition url_attribute (keys : rss_keys) (sub : option pyval) : pyval :=
  match sub with
  | Some (PDict m) => default PNone (dict_lookup (RSS_IMAGE_URL_ATTR keys) m)
  | _ => PNone
  end.

(** The enclosure declares a type that starts with ["image/"]. *)
Definition declares_image (sub : option pyval) : bool :=
  match sub with
  | Some (PDict m) =>
      match dict_lookup "@type" m with
      | Some (PStr t) => String.prefix "image/" t
      | _ => false
      end
  | _ => false
  end.

(** The four places an image url may live, in the order of the
    specification. *)
Definition image_candidates (keys : rss_keys) (d : list (string * pyval)) : list pyval :=
  [ default PNone (dict_lookup (RSS_IMAGE_ROOT keys) d);
    url_attribute keys (dict_lookup (RSS_IMAGE_ROOT_MEDIA_CONTENT keys) d);
    url_attribute keys (dict_lookup (RSS_IMAGE_ROOT_MEDIA_THUMBNAIL keys) d);
    if declares_image (dict_lookup (RSS_IMAGE_ROOT_ENCLOSURE keys) d)
    then url_attribute keys (dict_lookup (RSS_IMAGE_ROOT_ENCLOSURE keys) d)
    else PNone ].

Definition first_non_empty (candidates : list pyval) : option pyval :=
  List.find truthy candidates.

(** The sub-objects that the extraction gets to consult are absent or
    mappings.  A location is consulted only while no earlier location
    has given a non-empty candidate; what stands at the locations after the
    first non-empty candidate is of no concern.  A consulted enclosure
    declares its type, if at all, as text. *)
Definition consulted_ok (keys : rss_keys) (d : list (string * pyval)) : bool :=
  truthy (default PNone (dict_lookup (RSS_IMAGE_ROOT keys) d))
  || (absent_or_mapping (RSS_IMAGE_ROOT_MEDIA_CONTENT keys) d
      && (truthy (url_attribute keys (dict_lookup (RSS_IMAGE_ROOT_MEDIA_CONTENT keys) d))
          || (absent_or_mapping (RSS_IMAGE_ROOT_MEDIA_THUMBNAIL keys) d
              && (truthy (url_attribute keys
                            (dict_lookup (RSS_IMAGE_ROOT_MEDIA_THUMBNAIL keys) d))
                  || (absent_or_mapping (RSS_IMAGE_ROOT_ENCLOSURE keys) d
                      && enclosure_type_is_text keys d))))).

(** The image url of an item node: the first non-empty candidate, and
    failing that the value looked up last. *)
Definition extracted_image (keys : rss_keys) (d : list (string * pyval)) : pyval :=
  match first_non_empty (image_candidates keys d) with
  | Some candidate => candidate
  | None =>
      if declares_image (dict_lookup (RSS_IMAGE_ROOT_ENCLOSURE keys) d)
      then url_attribute keys (dict_lookup (RSS_IMAGE_ROOT_ENCLOSURE keys) d)
      else url_attribute keys (dict_lookup (RSS_IMAGE_ROOT_MEDIA_THUMBNAIL keys) d)
  end.


Section Extraction.
Context (keys : rss_keys).
Context (sanitize_text : pyval -> option string).
Context (to_date : pyval -> option datetime).



End Extraction.

(** The fetch of the URL adapter fails: [requests.get] raises, or the
    status is not 200. *)
Definition fetch_failed (r : result Response) : bool :=
  match r with
  | Raise _ => true
  | Ok f => negb (status_code f =? 200)%Z
  end.

(** The failure is one of the invalid-URL exceptions of [requests]. *)
Definition invalid_url (r : result Response) : bool :=
  match r with
  | Raise InvalidSchema | Raise InvalidURL | Raise MissingSchema => true
  | _ => false
  end.

End RssSpec.

(** ** Task2.py with its objects in a store *)

(** [HistoryDict] keeps the very dict object it is given, appends to its
    history list in place and then rebinds the attribute to a fresh slice.
    What a caller sees through a list or dict it still holds therefore
    depends on which object is which.  Here every list and every dict is an
    object at an address, and variables and attributes hold addresses; the
    [HistoryDict] instance itself is threaded through. *)
Module Task2Heap.
Import Python.

Section Heap.
Context {K : Type} `{Countable K} {V : Type}.

Record heap : Type := mkHeap {
  list_objects : list (list K);
  dict_objects : list (gmap K V)
}.

Record HistoryDict : Type := mkHistoryDict {
  dict : nat;
  count : Z;
  history : nat
}.

(** A new list object; its address is the next free one. *)
Definition new_list (l : list K) (h : heap) : nat * heap :=
  (length (list_objects h), mkHeap (list_objects h ++ [l]) (dict_objects h)).

(** A new dict object, as a dict display of the caller creates it. *)
Definition new_dict (d : gmap K V) (h : heap) : nat * heap :=
  (length (dict_objects h), mkHeap (list_objects h) (dict_objects h ++ [d])).

(** The list at an address. *)
Definition read_list (r : nat) (h : heap) : list K :=
  default [] (list_objects h !! r).

(** [__init__(self, dict, count=10)]: [self.dict] is the caller's object,
    [self.history] a new empty list. *)
Definition init (dict_ref : nat) (cnt : option Z) (h : heap) : HistoryDict * heap :=
  let (history_ref, h') := new_list [] h in
  (mkHistoryDict dict_ref (default 10%Z cnt) history_ref, h').

(** [set_value(self, key, value)]: the item assignment and [append] change
    objects in place; the slice is a new list, to which the attribute is
    rebound. *)
Definition set_value (self : HistoryDict) (key : K) (value : V) (h : heap)
  : HistoryDict * heap :=
  let h1 := mkHeap (list_objects h)
                   (alter (fun d => <[key := value]> d) (dict self) (dict_objects h)) in
  let h2 := mkHeap (alter (fun l => l ++ [key]) (history self) (list_objects h1))
                   (dict_objects h1) in
  let sliced := slice_from (- count self) (read_list (history self) h2) in
  let (history_ref, h3) := new_list sliced h2 in
  (mkHistoryDict (dict self) (count self) history_ref, h3).

(** [get_history(self)]: the list object itself, not a copy. *)
Definition get_history (self : HistoryDict) : nat := history self.

Definition set_values (self : HistoryDict) (calls : list (K * V)) (h : heap)
  : HistoryDict * heap :=
  fold_left (fun sh kv => set_value sh.1 kv.1 kv.2 sh.2) calls (self, h).

(** [HistoryDict(dict, count)] on a dict display: the dict is created, then
    the instance. *)
Definition construct (d : gmap K V) (cnt : option Z) (h : heap) : nat * HistoryDict * heap :=
  let (dict_ref, h1) := new_dict d h in
  let (self, h2) := init dict_ref cnt h1 in
  (dict_ref, self, h2).

End Heap.
Arguments heap K {_ _} V.

(** The instance [self] in store [h] stands for the value [pure] of the
    model without a store. *)
Definition models {K : Type} `{Countable K} {V : Type}
    (self : HistoryDict) (h : heap K V) (pure : Task2.HistoryDict K V) : Prop :=
  count self = Task2.count pure
  /\ list_objects h !! history self = Some (Task2.history pure)
  /\ dict_objects h !! dict self = Some (Task2.dict pure).

End Task2Heap.

(** ** Further sample inputs *)

Module MoreSamples.
Import Python RssParse.

(** A source that answers 200 with a body that is not a feed. *)
Definition requests_get_html (url : string) : result Response :=
  if String.eqb url "http://pages.example/index.html" then
    Ok {| status_code := 200; text := "<html>" |}
  else Raise ConnectionError.

(** An item node with a direct image and an empty [media:content]
    element. *)
Definition node_image_and_null_media : pyval :=
  PDict [("image", PStr "i.png"); ("media:content", PNone)].

(** An item node with a [media:content] url and, after it, two
    enclosures (decoded to a list). *)
Definition node_content_and_enclosures : pyval :=
  PDict [("media:content", PDict [("@url", PStr "c.png")]);
         ("enclosure", PList [PDict [("@url", PStr "e.png"); ("@type", PStr "image/png")];
                              PDict [("@url", PStr "f.png"); ("@type", PStr "image/png")]])].

(** A feed of three items whose second is an empty element, and a feed of
    two items whose second carries two thumbnails; an empty element decodes
    to [None], a repeated element to a list. *)
Definition doc_empty_item : string :=
  "<rss><channel><item><title>T</title><link>L</link><pubDate>Mon, 01 Jan 2024 00:00:00 GMT</pubDate></item><item/><item><title>V</title><link>M</link><pubDate>Mon, 01 Jan 2024 00:00:00 GMT</pubDate><enclosure url='v.png' type='image/png'/></item></channel></rss>".

Definition tree_empty_item : pyval :=
  PDict [("rss", PDict [("channel",
    PDict [("item", PList [Samples.node_T; PNone; Samples.node_V])])])].

Definition doc_two_thumbnails : string :=
  "<rss><channel><item><title>T</title><link>L</link><pubDate>Mon, 01 Jan 2024 00:00:00 GMT</pubDate></item><item><title>W</title><link>N</link><pubDate>Mon, 01 Jan 2024 00:00:00 GMT</pubDate><media:thumbnail url='a.png'/><media:thumbnail url='b.png'/></item></channel></rss>".

Definition node_W : pyval :=
  PDict [("title", PStr "W"); ("link", PStr "N");
         ("pubDate", PStr "Mon, 01 Jan 2024 00:00:00 GMT");
         ("media:thumbnail", PList [PDict [("@url", PStr "a.png")];
                                    PDict [("@url", PStr "b.png")]])].

Definition tree_two_thumbnails : pyval :=
  PDict [("rss", PDict [("channel", PDict [("item", PList [Samples.node_T; node_W])])])].

(** [xmltodict.parse] on these two documents. *)
Definition xmltodict_parse (doc : string) : result pyval :=
  if String.eqb doc doc_empty_item then Ok tree_empty_item
  else if String.eqb doc doc_two_thumbnails then Ok tree_two_thumbnails
  else Raise ExpatError.

End MoreSamples.

(** * Properties *)

(** ** HistoryDict *)

Section HistoryDictFacts.
Import Python Task2.
Context {K : Type} `{Countable K} {V : Type}.
Implicit Types (self : HistoryDict K V) (calls : list (K * V)) (l r : list K).

(** With a positive count the slice keeps the last [count] entries. *)
Lemma slice_from_negated l (c : Z) :
  (0 < c)%Z -> slice_from (- c) l = last_n (Z.to_nat c) l.
Proof.
  intros Hc. unfold slice_from, last_n.
  destruct (Z.ltb_spec (- c) 0) as [_ | Hge]; [| lia].
  f_equal. lia.
Qed.

(** [-0] is [0], so with count 0 the slice is the whole list. *)
Lemma slice_from_negated_zero l : slice_from (- 0) l = l.
Proof.
  unfold slice_from. change (- 0)%Z with 0%Z.
  rewrite Z.ltb_irrefl, Z.min_l by lia. apply drop_0.
Qed.

Lemma length_last_n n l : length (last_n n l) = Nat.min n (length l).
Proof. unfold last_n. rewrite length_drop. lia. Qed.

(** Trimming early does not change what the last [n] entries are. *)
Lemma last_n_app_trimmed n l r :
  last_n n (last_n n l ++ r) = last_n n (l ++ r).
Proof.
  unfold last_n.
  rewrite !drop_app, !length_app, !length_drop, drop_drop.
  f_equal; f_equal; lia.
Qed.

Lemma set_values_cons self kv calls :
  set_values self (kv :: calls) = set_values (set_value self kv.1 kv.2) calls.
Proof. reflexivity. Qed.

Lemma set_values_count self calls : count (set_values self calls) = count self.
Proof.
  revert self. induction calls as [| kv calls IH]; intros self; [reflexivity |].
  rewrite set_values_cons, IH. reflexivity.
Qed.

(** The history under a positive count, from any state whose history is
    already trimmed. *)
Lemma set_values_history self calls :
  (0 < count self)%Z ->
  history self = last_n (Z.to_nat (count self)) (history self) ->
  history (set_values self calls)
  = last_n (Z.to_nat (count self)) (history self ++ calls.*1).
Proof.
  revert self. induction calls as [| [k v] calls IH]; intros self Hpos Htrim.
  - simpl. rewrite app_nil_r. exact Htrim.
  - rewrite set_values_cons. simpl fst. simpl snd.
    assert (Hstep : history (set_value self k v)
                    = last_n (Z.to_nat (count self)) (history self ++ [k])).
    { simpl. apply slice_from_negated. exact Hpos. }
    rewrite IH.
    + simpl count. rewrite Hstep, last_n_app_trimmed, <- app_assoc. reflexivity.
    + exact Hpos.
    + simpl count. rewrite Hstep.
      rewrite <- (app_nil_r (last_n _ (history self ++ [k]))) at 2.
      rewrite last_n_app_trimmed, app_nil_r. reflexivity.
Qed.

(** With count 0 nothing is ever trimmed. *)
Lemma set_values_history_zero self calls :
  count self = 0%Z ->
  history (set_values self calls) = history self ++ calls.*1.
Proof.
  revert self. induction calls as [| [k v] calls IH]; intros self Hzero.
  - simpl. rewrite app_nil_r. reflexivity.
  - rewrite set_values_cons, IH by exact Hzero.
    simpl. rewrite Hzero, slice_from_negated_zero, <- app_assoc. reflexivity.
Qed.

(** For a capacity of at least one, [get_history] is the last
    [min n count] keys of the [n] calls, in call order, and a call stores
    its value under its key. *)
Theorem get_history_positive_count (d : gmap K V) (cnt : option Z) calls :
  (0 < default 10 cnt)%Z ->
  let self := set_values (init d cnt) calls in
  let n := length calls in
  get_history self = last_n (Nat.min n (Z.to_nat (default 10%Z cnt))) calls.*1
  /\ length (get_history self) = Nat.min n (Z.to_nat (default 10%Z cnt))
  /\ forall key value, dict (set_value self key value) !! key = Some value.
Proof.
  intros Hpos self n. subst self n. unfold get_history.
  rewrite set_values_history; [| exact Hpos | reflexivity].
  simpl. split; [| split].
  - unfold last_n. rewrite length_fmap. f_equal. lia.
  - rewrite length_last_n, length_fmap. lia.
  - intros key value. apply lookup_insert_eq.
Qed.

End HistoryDictFacts.

Lemma get_history_positive_count_witness :
  Task2.get_history
    (Task2.set_values (Task2.init (∅ : gmap nat nat) (Some 2%Z)) [(1, 10); (2, 20); (3, 30)])
  = [2; 3].
Proof.
  pose proof (get_history_positive_count (∅ : gmap nat nat) (Some 2%Z)
                [(1, 10); (2, 20); (3, 30)]) as Hg.
  simpl in Hg. destruct Hg as [Hg _]; [lia |]. exact Hg.
Defined.

(** C10: after [n] calls of [set_value], [get_history] is to return the last
    [min n count] keys.  A [HistoryDict] of capacity 0 answers with every key
    it was given: after two calls the history has two entries, where
    [min 2 0] is none. *)
Theorem get_history_capacity_zero :
  let d := Task2.set_values (Task2.init (∅ : gmap string Z) (Some 0%Z))
             [("a"%string, 1%Z); ("b"%string, 2%Z)] in
  Task2.get_history d = ["a"%string; "b"%string]
  /\ Task2.last_n (Nat.min 2 (Z.to_nat 0)) ["a"%string; "b"%string] = []
  /\ Task2.dict d !! "b"%string = Some 2%Z.
Proof.
  cbv zeta. split; [| split].
  - unfold Task2.get_history.
    rewrite (set_values_history_zero (Task2.init ∅ (Some 0%Z))); reflexivity.
  - reflexivity.
  - simpl. apply lookup_insert_eq.
Qed.

(** ** The feed parsers *)

Section ValidatorFacts.
Import Python RssParse RssSpec.

Lemma truthy_non_empty v : truthy v = true <-> non_empty v.
Proof.
  unfold non_empty. destruct v as [| s | l | d]; simpl.
  - split; [discriminate | intros [Hn _]; congruence].
  - destruct (String.eqb_spec s "") as [-> | Hs]; simpl.
    + split; [discriminate | intros (_ & Hn & _); congruence].
    + split; [| reflexivity]. intros _. repeat split; congruence.
  - destruct l; split; try discriminate; try reflexivity.
    + intros (_ & _ & Hn & _); congruence.
    + intros _. repeat split; congruence.
  - destruct d; split; try discriminate; try reflexivity.
    + intros (_ & _ & _ & Hn); congruence.
    + intros _. repeat split; congruence.
Qed.

Lemma truthy_str_non_empty s :
  truthy_str s = true <-> s <> None /\ s <> Some ""%string.
Proof.
  destruct s as [s |]; simpl.
  - destruct (String.eqb_spec s "") as [-> | Hs]; simpl.
    + split; [discriminate | intros [_ Hn]; congruence].
    + split; [| reflexivity]. intros _. split; congruence.
  - split; [discriminate | intros [Hn _]; congruence].
Qed.

Lemma truthy_date_non_null d : truthy_date d = true <-> d <> None.
Proof. destruct d; simpl; split; congruence. Qed.

(** C5: the validator accepts an item exactly when its title is non-empty,
    its publication date is not null and its link is non-empty; the
    description, the image url and the source have no say. *)
Theorem validate_correctness_iff (item : RssItem) :
  (validate_correctness item = true <->
     (title item <> None /\ title item <> Some ""%string)
     /\ publication_date item <> None
     /\ non_empty (link item))
  /\ (forall description' image_url' source',
        validate_correctness
          (mkRssItem (title item) description' (publication_date item)
                     (link item) image_url' source')
        = validate_correctness item).
Proof.
  split.
  - unfold validate_correctness.
    rewrite !andb_true_iff, truthy_str_non_empty, truthy_date_non_null, truthy_non_empty.
    tauto.
  - reflexivity.
Qed.

End ValidatorFacts.

Section ExtractorFacts.
Import Python RssParse RssSpec.
Context (keys : rss_keys).

(** The direct image field wins whatever else the node holds, malformed
    entries included: nothing else is looked at. *)
Lemma parse_image_direct_field d v :
  dict_lookup (RSS_IMAGE_ROOT keys) d = Some v ->
  truthy v = true ->
  parse_image keys (PDict d) = Ok v.
Proof.
  intros Hlookup Hv. unfold parse_image. cbn. rewrite Hlookup. cbn.
  rewrite Hv. cbn. rewrite Hv. cbn. rewrite Hv. reflexivity.
Qed.

(** The url attribute of a sub-object that is absent or a mapping. *)
Lemma get_url_attribute key d :
  absent_or_mapping key d = true ->
  (media ← get (PDict d) key (PDict []); get media (RSS_IMAGE_URL_ATTR keys) PNone)
  = Ok (url_attribute keys (dict_lookup key d)).
Proof.
  unfold absent_or_mapping, url_attribute. cbn.
  destruct (dict_lookup key d) as [[| s | l | m] |]; try discriminate; intros _; cbn.
  - destruct (dict_lookup (RSS_IMAGE_URL_ATTR keys) m); reflexivity.
  - reflexivity.
Qed.

(** The enclosure step, with [current] the image url found so far. *)
Lemma get_enclosure_url d current :
  absent_or_mapping (RSS_IMAGE_ROOT_ENCLOSURE keys) d = true ->
  enclosure_type_is_text keys d = true ->
  (enclosure ← get (PDict d) (RSS_IMAGE_ROOT_ENCLOSURE keys) (PDict []);
   type ← get enclosure "@type" (PStr "");
   is_image ← startswith type "image/";
   if is_image : bool then get enclosure (RSS_IMAGE_URL_ATTR keys) PNone
   else Ok current)
  = Ok (if declares_image (dict_lookup (RSS_IMAGE_ROOT_ENCLOSURE keys) d)
        then url_attribute keys (dict_lookup (RSS_IMAGE_ROOT_ENCLOSURE keys) d)
        else current).
Proof.
  unfold absent_or_mapping, enclosure_type_is_text, url_attribute, declares_image. cbn.
  destruct (dict_lookup (RSS_IMAGE_ROOT_ENCLOSURE keys) d) as [[| s | l | m] |];
    try discriminate; intros _; cbn; [| intros _; reflexivity].
  destruct (dict_lookup "@type" m) as [[| t | l | m'] |]; try discriminate; intros _; cbn.
  - destruct (String.prefix "image/" t); [| reflexivity].
    destruct (dict_lookup (RSS_IMAGE_URL_ATTR keys) m); reflexivity.
  - reflexivity.
Qed.

(** [parse_image] on a node whose consulted sub-objects are absent or
    mappings. *)
Lemma parse_image_extracted d :
  consulted_ok keys d = true ->
  parse_image keys (PDict d) = Ok (extracted_image keys d).
Proof.
  unfold consulted_ok, extracted_image, first_non_empty, image_candidates, parse_image.
  replace (get (PDict d) (RSS_IMAGE_ROOT keys) PNone)
    with (Ok (default PNone (dict_lookup (RSS_IMAGE_ROOT keys) d)))
    by (cbn; destruct (dict_lookup (RSS_IMAGE_ROOT keys) d); reflexivity).
  set (direct := default PNone (dict_lookup (RSS_IMAGE_ROOT keys) d)).
  set (content := url_attribute keys (dict_lookup (RSS_IMAGE_ROOT_MEDIA_CONTENT keys) d)).
  set (thumbnail := url_attribute keys (dict_lookup (RSS_IMAGE_ROOT_MEDIA_THUMBNAIL keys) d)).
  set (enclosure := dict_lookup (RSS_IMAGE_ROOT_ENCLOSURE keys) d).
  cbn [mbind result_bind List.find].
  destruct (truthy direct) eqn:Hdirect; cbn [negb orb mbind result_bind].
  { intros _. rewrite Hdirect. cbn [negb mbind result_bind]. rewrite Hdirect. reflexivity. }
  rewrite andb_true_iff. intros [Hcontent Hrest]. revert Hrest.
  rewrite (get_url_attribute _ d Hcontent). fold content.
  cbn [mbind result_bind].
  destruct (truthy content) eqn:Hfound; cbn [negb orb mbind result_bind].
  { intros _. rewrite Hfound. reflexivity. }
  rewrite andb_true_iff. intros [Hthumb Hrest]. revert Hrest.
  rewrite (get_url_attribute _ d Hthumb). fold thumbnail.
  cbn [mbind result_bind].
  destruct (truthy thumbnail) eqn:Hthumbnail; cbn [negb orb mbind result_bind].
  { intros _. reflexivity. }
  rewrite andb_true_iff. intros [Henc Htype].
  rewrite (get_enclosure_url d thumbnail Henc Htype). fold enclosure.
  destruct (declares_image enclosure); [| reflexivity].
  destruct (truthy (url_attribute keys enclosure)); reflexivity.
Qed.

Lemma get_url_attribute_raises key d :
  absent_or_mapping key d = false ->
  (media ← get (PDict d) key (PDict []); get media (RSS_IMAGE_URL_ATTR keys) PNone)
  = Raise AttributeError.
Proof.
  unfold absent_or_mapping. cbn.
  destruct (dict_lookup key d) as [[| s | l | m] |]; try discriminate; reflexivity.
Qed.

Lemma get_enclosure_url_raises d current :
  absent_or_mapping (RSS_IMAGE_ROOT_ENCLOSURE keys) d && enclosure_type_is_text keys d
  = false ->
  (enclosure ← get (PDict d) (RSS_IMAGE_ROOT_ENCLOSURE keys) (PDict []);
   type ← get enclosure "@type" (PStr "");
   is_image ← startswith type "image/";
   if is_image : bool then get enclosure (RSS_IMAGE_URL_ATTR keys) PNone
   else Ok current)
  = Raise AttributeError.
Proof.
  unfold absent_or_mapping, enclosure_type_is_text. cbn.
  destruct (dict_lookup (RSS_IMAGE_ROOT_ENCLOSURE keys) d) as [[| s | l | m] |];
    cbn; try discriminate; try reflexivity.
  destruct (dict_lookup "@type" m) as [[| t | l | m'] |];
    cbn; try discriminate; reflexivity.
Qed.

(** A consulted sub-object that is there without being a mapping makes
    the extraction raise: the hypothesis above is as wide as it can
    be. *)
Lemma parse_image_raises d :
  consulted_ok keys d = false ->
  parse_image keys (PDict d) = Raise AttributeError.
Proof.
  unfold consulted_ok, parse_image.
  replace (get (PDict d) (RSS_IMAGE_ROOT keys) PNone)
    with (Ok (default PNone (dict_lookup (RSS_IMAGE_ROOT keys) d)))
    by (cbn; destruct (dict_lookup (RSS_IMAGE_ROOT keys) d); reflexivity).
  set (direct := default PNone (dict_lookup (RSS_IMAGE_ROOT keys) d)).
  set (content := url_attribute keys (dict_lookup (RSS_IMAGE_ROOT_MEDIA_CONTENT keys) d)).
  set (thumbnail := url_attribute keys (dict_lookup (RSS_IMAGE_ROOT_MEDIA_THUMBNAIL keys) d)).
  cbn [mbind result_bind].
  destruct (truthy direct); cbn [negb orb]; [discriminate |].
  destruct (absent_or_mapping (RSS_IMAGE_ROOT_MEDIA_CONTENT keys) d) eqn:Hcontent;
    cbn [andb]; [| intros _; rewrite (get_url_attribute_raises _ d Hcontent); reflexivity].
  rewrite (get_url_attribute _ d Hcontent). fold content. cbn [mbind result_bind].
  destruct (truthy content); cbn [negb orb]; [discriminate |].
  destruct (absent_or_mapping (RSS_IMAGE_ROOT_MEDIA_THUMBNAIL keys) d) eqn:Hthumb;
    cbn [andb]; [| intros _; rewrite (get_url_attribute_raises _ d Hthumb); reflexivity].
  rewrite (get_url_attribute _ d Hthumb). fold thumbnail. cbn [mbind result_bind].
  destruct (truthy thumbnail); cbn [negb orb]; [discriminate |].
  intros Henc. rewrite (get_enclosure_url_raises d thumbnail Henc). reflexivity.
Qed.

(** C4, as the code has it: on an item node that is a mapping and whose
    consulted sub-objects are absent or mappings, the extracted image url is
    the first non-empty candidate in the order image field, [media:content]
    url, [media:thumbnail] url, enclosure url (the last only under a type
    that starts with ["image/"]); what stands at the locations after it is
    not looked at; when no candidate is non-empty the result is an empty
    value; and no error is raised. *)
Theorem parse_image_first_non_empty d :
  consulted_ok keys d = true ->
  exists v,
    parse_image keys (PDict d) = Ok v
    /\ match first_non_empty (image_candidates keys d) with
       | Some candidate => v = candidate
       | None => truthy v = false
       end.
Proof.
  intros Hshape. exists (extracted_image keys d).
  split; [exact (parse_image_extracted d Hshape) |].
  unfold extracted_image.
  destruct (first_non_empty (image_candidates keys d)) as [candidate |] eqn:Hfirst;
    [reflexivity |].
  unfold first_non_empty, image_candidates in Hfirst. cbn [List.find] in Hfirst.
  repeat match type of Hfirst with
         | (if truthy ?v then _ else _) = None =>
             destruct (truthy v) eqn:?; [discriminate |]
         end.
  destruct (declares_image _); assumption.
Qed.

End ExtractorFacts.

Lemma parse_image_first_non_empty_witness :
  exists v,
    RssParse.parse_image RssParse.spec_keys MoreSamples.node_content_and_enclosures
    = Python.Ok v
    /\ v = Python.PStr "c.png".
Proof.
  destruct (parse_image_first_non_empty RssParse.spec_keys
              [("media:content"%string, Python.PDict [("@url"%string, Python.PStr "c.png")]);
               ("enclosure"%string,
                Python.PList
                  [Python.PDict [("@url"%string, Python.PStr "e.png");
                                 ("@type"%string, Python.PStr "image/png")];
                   Python.PDict [("@url"%string, Python.PStr "f.png");
                                 ("@type"%string, Python.PStr "image/png")]])]
              eq_refl) as (v & Hv & Hfirst).
  exists v. split; [exact Hv | exact Hfirst].
Defined.

(** C4, as stated, fails twice: with an empty url attribute and nothing
    else, no candidate is non-empty and yet the image url is the empty
    string, not null; and an empty [media:content] element (decoded to
    [None]) makes the extraction raise. *)
Lemma parse_image_not_null_counterexample :
  RssSpec.first_non_empty
    (RssSpec.image_candidates RssParse.spec_keys
       [("media:thumbnail"%string, Python.PDict [("@url"%string, Python.PStr "")])]) = None
  /\ RssParse.parse_image RssParse.spec_keys Samples.node_empty_thumbnail
     = Python.Ok (Python.PStr "")
  /\ Python.PStr "" <> Python.PNone
  /\ RssParse.parse_image RssParse.spec_keys Samples.node_null_media
     = Python.Raise Python.AttributeError.
Proof. repeat split; try reflexivity. discriminate. Qed.

Section FeedParserFacts.
Import Python RssParse RssSpec.
Context (keys : rss_keys).
Context (xmltodict_parse : string -> result pyval).
Context (sanitize_text : pyval -> option string).
Context (to_date : pyval -> option datetime).

#[local] Abbreviation parse_item := (RssParse.parse_item keys sanitize_text to_date).
#[local] Abbreviation parse_items_loop := (RssParse.parse_items_loop keys sanitize_text to_date).
#[local] Abbreviation xml_parse := (RssParse.xml_parse keys xmltodict_parse sanitize_text to_date).
#[local] Abbreviation rejected := (fun item => negb (validate_correctness item)).







(** How a computation in [M] runs. *)
Lemma run_bind {A B : Type} (m : M A) (f : A -> M B) shown :
  (m ≫= f) shown
  = match m shown with
    | (Ok a, shown') => f a shown'
    | (Raise e, shown') => (Raise e, shown')
    end.
Proof. reflexivity. Qed.

Lemma run_lift {A : Type} (r : result A) shown : lift r shown = (r, shown).
Proof. reflexivity. Qed.

Lemma run_ret {A : Type} (a : A) shown : (mret a : M A) shown = (Ok a, shown).
Proof. reflexivity. Qed.

Lemma run_add_message c text shown :
  add_message (McSink c) text shown = (Ok tt, add_message_impl c text shown).
Proof. reflexivity. Qed.

Lemma run_add_message_none text shown :
  add_message McNone text shown = (Raise AttributeError, shown).
Proof. reflexivity. Qed.


Lemma run_try_except_ok {A : Type} (body : M A) clauses shown a shown' :
  body shown = (Ok a, shown') -> try_except body clauses shown = (Ok a, shown').
Proof. intros Hbody. unfold try_except. rewrite Hbody. reflexivity. Qed.

Lemma run_try_except_raise {A : Type} (body : M A) clauses shown e shown' :
  body shown = (Raise e, shown') ->
  try_except body clauses shown
  = match clauses e with
    | Some handler => handler shown'
    | None => (Raise e, shown')
    end.
Proof. intros Hbody. unfold try_except. rewrite Hbody. reflexivity. Qed.

(** The outcome of the loop does not depend on which sink listens. *)
Lemma parse_items_loop_any_sink c1 c2 nodes : forall res shown1 shown2,
  (parse_items_loop (McSink c1) nodes res shown1).1
  = (parse_items_loop (McSink c2) nodes res shown2).1.
Proof.
  induction nodes as [| node nodes IH]; intros res shown1 shown2; [reflexivity |].
  simpl RssParse.parse_items_loop. rewrite !run_bind, !run_lift.
  destruct (parse_item node) as [item | e]; [| reflexivity].
  destruct (validate_correctness item).
  - apply IH.
  - rewrite !run_bind. cbv beta iota. apply IH.
Qed.


(** What C1 gets right: a text that is not XML and a tree without the root
    key both end in [ParsingException]. *)
Lemma xml_parse_not_xml c doc shown :
  xmltodict_parse doc = Raise ExpatError ->
  (xml_parse (RssXmlParser_init doc (Some (McSink c))) shown).1
  = Raise (ParsingException NOT_A_FEED).
Proof.
  intros Hdecode.
  unfold RssParse.xml_parse, RssXmlParser_init, RssParser_init. cbn [xml_mc xml_feed default from_option id].
  rewrite run_bind, run_add_message, run_bind.
  erewrite run_try_except_raise; cycle 1.
  { rewrite run_lift, Hdecode. reflexivity. }
  reflexivity.
Qed.

Lemma xml_parse_no_root c doc d shown :
  xmltodict_parse doc = Ok (PDict d) ->
  dict_lookup (RSS_ROOT keys) d = None ->
  (xml_parse (RssXmlParser_init doc (Some (McSink c))) shown).1
  = Raise (ParsingException NOT_A_FEED).
Proof.
  intros Hdecode Hroot.
  unfold RssParse.xml_parse, RssXmlParser_init, RssParser_init. cbn [xml_mc xml_feed default from_option id].
  rewrite run_bind, run_add_message, run_bind.
  erewrite run_try_except_raise; cycle 1.
  { rewrite run_lift, Hdecode. simpl. rewrite Hroot. reflexivity. }
  reflexivity.
Qed.

(** What it misses: the channel and the item list are looked up outside
    the [try], so their absence surfaces as the [KeyError] itself. *)
Lemma xml_parse_no_channel c doc tree d shown :
  xmltodict_parse doc = Ok tree ->
  getitem tree (RSS_ROOT keys) = Ok (PDict d) ->
  dict_lookup (RSS_CHANNEL keys) d = None ->
  (xml_parse (RssXmlParser_init doc (Some (McSink c))) shown).1
  = Raise (KeyError (RSS_CHANNEL keys)).
Proof.
  intros Hdecode Hroot Hchannel.
  unfold RssParse.xml_parse, RssXmlParser_init, RssParser_init. cbn [xml_mc xml_feed default from_option id].
  rewrite run_bind, run_add_message, run_bind.
  erewrite run_try_except_ok; cycle 1.
  { rewrite run_lift, Hdecode. simpl. rewrite Hroot. reflexivity. }
  rewrite run_bind, run_add_message, run_bind.
  unfold RssParse.parse_items.
  rewrite run_bind, run_lift. simpl. rewrite Hchannel. reflexivity.
Qed.

(** A lone item object is iterated key by key, and a key is a string,
    which has no [get]. *)
Lemma xml_parse_lone_item c doc tree root channel key value entries shown :
  xmltodict_parse doc = Ok tree ->
  getitem tree (RSS_ROOT keys) = Ok root ->
  getitem root (RSS_CHANNEL keys) = Ok channel ->
  getitem channel (RSS_ITEMS keys) = Ok (PDict ((key, value) :: entries)) ->
  (xml_parse (RssXmlParser_init doc (Some (McSink c))) shown).1
  = Raise AttributeError.
Proof.
  intros Hdecode Hroot Hchannel Hitems.
  unfold RssParse.xml_parse, RssXmlParser_init, RssParser_init. cbn [xml_mc xml_feed default from_option id].
  rewrite run_bind, run_add_message, run_bind.
  erewrite run_try_except_ok; cycle 1.
  { rewrite run_lift, Hdecode. simpl. rewrite Hroot. reflexivity. }
  rewrite run_bind, run_add_message, run_bind.
  unfold RssParse.parse_items.
  rewrite run_bind, run_lift, Hchannel. simpl. rewrite Hitems.
  reflexivity.
Qed.

(** Without a sink argument [self._mc] is [None], and the first message
    already fails. *)
Lemma xml_parse_without_sink doc shown :
  xml_parse (RssXmlParser_init doc None) shown = (Raise AttributeError, shown).
Proof. reflexivity. Qed.

(** With a sink whose [add_message] returns normally, as every
    [MessageConsumer] here does, the outcome is the same whichever such
    sink it is and whatever it has shown before.  (A sink that raises is
    outside this statement: its exception would be the outcome.) *)
Lemma xml_parse_any_sink c1 c2 doc shown1 shown2 :
  (xml_parse (RssXmlParser_init doc (Some (McSink c1))) shown1).1
  = (xml_parse (RssXmlParser_init doc (Some (McSink c2))) shown2).1.
Proof.
  unfold RssParse.xml_parse, RssXmlParser_init, RssParser_init. cbn [xml_mc xml_feed default from_option id].
  rewrite !run_bind, !run_add_message, !run_bind.
  unfold try_except. rewrite !run_lift.
  destruct (tree ← xmltodict_parse doc; getitem tree (RSS_ROOT keys)) as [feed_dict | e].
  - rewrite !run_bind, !run_add_message, !run_bind.
    unfold RssParse.parse_items. rewrite !run_bind, !run_lift.
    destruct (channel ← getitem feed_dict (RSS_CHANNEL keys);
              getitem channel (RSS_ITEMS keys)) as [raw | e]; [| reflexivity].
    rewrite !run_bind, !run_lift.
    destruct (iter raw) as [elements | e]; [| reflexivity].
    cbn [xml_mc].
    pose proof (parse_items_loop_any_sink c1 c2 elements [] 
                  (add_message_impl c1 "Parsing items info"
                     (add_message_impl c1 "Parsing RSS Feed by elements" shown1))
                  (add_message_impl c2 "Parsing items info"
                     (add_message_impl c2 "Parsing RSS Feed by elements" shown2))) as Hloop.
    destruct (parse_items_loop (McSink c1) elements [] _) as [[items1 | e1] s1];
      destruct (parse_items_loop (McSink c2) elements [] _) as [[items2 | e2] s2];
      simpl in Hloop; try discriminate; inversion Hloop; subst; reflexivity.
  - destruct e; reflexivity.
Qed.

End FeedParserFacts.


(** C3: of [N] raw items of which [K] fail validation the parse is to
    return the other [N - K], with one diagnostic for each rejected item and
    without any rejected item stopping it.  An empty item element, which
    has neither title nor link nor date, decodes to [None]; the extraction
    calls [get] on it, and the parse of a three-item feed ends in
    [AttributeError] with no diagnostic sent, where a feed of two items and
    one diagnostic is due.  An item that carries the same image element
    twice stops the parse in the same way. *)
Theorem xml_parse_empty_item_aborts :
  MoreSamples.xmltodict_parse MoreSamples.doc_empty_item
  = Python.Ok MoreSamples.tree_empty_item
  /\ RssParse.xml_parse RssParse.spec_keys MoreSamples.xmltodict_parse
       Samples.sample_sanitize_text Samples.sample_to_date
       (RssParse.RssXmlParser_init MoreSamples.doc_empty_item
          (Some (RssParse.McSink RssParse.MESSAGE_CONSUMER_RECORD))) []
     = (Python.Raise Python.AttributeError,
        ["Parsing RSS Feed by elements"%string; "Parsing items info"%string])
  /\ MoreSamples.xmltodict_parse MoreSamples.doc_two_thumbnails
     = Python.Ok MoreSamples.tree_two_thumbnails
  /\ RssParse.xml_parse RssParse.spec_keys MoreSamples.xmltodict_parse
       Samples.sample_sanitize_text Samples.sample_to_date
       (RssParse.RssXmlParser_init MoreSamples.doc_two_thumbnails
          (Some (RssParse.McSink RssParse.MESSAGE_CONSUMER_RECORD))) []
     = (Python.Raise Python.AttributeError,
        ["Parsing RSS Feed by elements"%string; "Parsing items info"%string]).
Proof. repeat split; reflexivity. Qed.

(** The three-item sample, run: the second item has no link and is the one
    left out. *)
Example xml_parse_three_items :
  RssParse.xml_parse RssParse.spec_keys Samples.sample_xmltodict_parse
    Samples.sample_sanitize_text Samples.sample_to_date
    (RssParse.RssXmlParser_init Samples.doc_three_items
       (Some (RssParse.McSink RssParse.MESSAGE_CONSUMER_RECORD))) []
  = (Python.Ok
       (RssParse.mkRssFeed
          [RssParse.mkRssItem (Some "T"%string) Python.PNone (Some 1704067200%Z)
             (Python.PStr "L") Python.PNone None;
           RssParse.mkRssItem (Some "V"%string) Python.PNone (Some 1704067200%Z)
             (Python.PStr "M") (Python.PStr "v.png") None]),
     ["Parsing RSS Feed by elements"%string; "Parsing items info"%string;
      RssParse.SKIPPED; "Parsing finished"%string]).
Proof. reflexivity. Qed.

(** C1: [parse] is to end in a feed or in [ParsingException].  On a document
    whose root has no channel the lookup of the channel key, which stands
    outside the [try], raises [KeyError], and that is what the caller
    gets. *)
Theorem xml_parse_missing_channel_raises_key_error :
  Samples.sample_xmltodict_parse Samples.doc_no_channel = Python.Ok Samples.tree_no_channel
  /\ RssParse.xml_parse RssParse.spec_keys Samples.sample_xmltodict_parse
       Samples.sample_sanitize_text Samples.sample_to_date
       (RssParse.RssXmlParser_init Samples.doc_no_channel
          (Some (RssParse.McSink RssParse.MESSAGE_CONSUMER_RECORD))) []
     = (Python.Raise (Python.KeyError "channel"),
        ["Parsing RSS Feed by elements"%string; "Parsing items info"%string]).
Proof. split; reflexivity. Qed.

(** C6: a feed with one item decodes to a lone item object.  The parser is
    to wrap it into a one-element list; it iterates over the object's keys
    instead and fails on the first of them with [AttributeError]. *)
Theorem xml_parse_single_item_raises :
  Samples.sample_xmltodict_parse Samples.doc_one_item = Python.Ok Samples.tree_one_item
  /\ Python.iter Samples.node_T
     = Python.Ok [Python.PStr "title"; Python.PStr "link"; Python.PStr "pubDate"]
  /\ RssParse.xml_parse RssParse.spec_keys Samples.sample_xmltodict_parse
       Samples.sample_sanitize_text Samples.sample_to_date
       (RssParse.RssXmlParser_init Samples.doc_one_item
          (Some (RssParse.McSink RssParse.MESSAGE_CONSUMER_RECORD))) []
     = (Python.Raise Python.AttributeError,
        ["Parsing RSS Feed by elements"%string; "Parsing items info"%string]).
Proof. repeat split; reflexivity. Qed.

(** C2: a parser built without a sink is to fall back on the no-op sink
    and to parse as it does with any sink.  The constructors of the concrete
    parsers default [mc] to [None] and overwrite the base class's no-op
    default with it, so the first message raises [AttributeError], where the
    same document parses to a feed once a sink is passed. *)
Theorem xml_parse_without_sink_raises :
  RssParse.xml_mc (RssParse.RssXmlParser_init Samples.doc_three_items None) = RssParse.McNone
  /\ RssParse.RssParser_init None = RssParse.McSink RssParse.MESSAGE_CONSUMER_NOOP
  /\ RssParse.xml_parse RssParse.spec_keys Samples.sample_xmltodict_parse
       Samples.sample_sanitize_text Samples.sample_to_date
       (RssParse.RssXmlParser_init Samples.doc_three_items None) []
     = (Python.Raise Python.AttributeError, [])
  /\ exists feed,
       RssParse.xml_parse RssParse.spec_keys Samples.sample_xmltodict_parse
         Samples.sample_sanitize_text Samples.sample_to_date
         (RssParse.RssXmlParser_init Samples.doc_three_items
            (Some (RssParse.McSink RssParse.MESSAGE_CONSUMER_NOOP))) []
       = (Python.Ok feed, [])
       /\ length (RssParse.rss_items feed) = 2.
Proof.
  repeat split. eexists. split; reflexivity.
Qed.

(** ** The source adapters *)

Section AdapterFacts.
Import Python RssParse RssSpec.
Context (keys : rss_keys).
Context (xmltodict_parse : string -> result pyval).
Context (sanitize_text : pyval -> option string).
Context (to_date : pyval -> option datetime).
Context (requests_get : string -> result Response).
Context (files : string -> option (result string)).
Context (from_json : string -> result RssFeed).

#[local] Abbreviation xml_parse :=
  (RssParse.xml_parse keys xmltodict_parse sanitize_text to_date).
#[local] Abbreviation url_parse :=
  (RssParse.url_parse keys xmltodict_parse sanitize_text to_date requests_get).
#[local] Abbreviation json_parse := (RssParse.json_parse files from_json).

(** Without a sink the URL adapter fails before it fetches anything, and
    its handler fails the same way. *)
Lemma url_parse_without_sink source shown :
  url_parse (RssUrlParser_init source None) shown = (Raise AttributeError, shown).
Proof. reflexivity. Qed.

(** The JSON adapter never talks to the sink. *)
Lemma json_parse_any_sink file_name mc1 mc2 shown :
  json_parse (RssJsonParser_init file_name mc1) shown
  = json_parse (RssJsonParser_init file_name mc2) shown.
Proof. reflexivity. Qed.

(** C7: whenever the fetch fails (an exception of [requests.get], or a
    status other than 200) the URL adapter ends in [ParsingException] with a
    message that names the source: "Invalid source URL: ..." for the
    invalid-URL exceptions, "Unable to connect to ..." for everything
    else, and the two texts differ. *)
Theorem url_parse_fetch_failure c source shown :
  fetch_failed (requests_get source) = true ->
  url_parse (RssUrlParser_init source (Some (McSink c))) shown
  = (if invalid_url (requests_get source)
     then (Raise (ParsingException ("Invalid source URL: " +:+ source)),
           deliver c ["Reaching out to " +:+ source;
                      "Encountered an error during reading RSS Feed from URL"%string] shown)
     else (Raise (ParsingException ("Unable to connect to " +:+ source)),
           deliver c ["Reaching out to " +:+ source; "Unable to connect"%string] shown))
  /\ "Invalid source URL: " +:+ source <> "Unable to connect to " +:+ source.
Proof.
  intros Hfailed. split; [| discriminate].
  unfold RssParse.url_parse, RssUrlParser_init, RssParser_init.
  cbn [url_mc url_source default from_option id].
  rewrite run_bind. unfold try_except at 1.
  rewrite run_bind, run_add_message, run_bind, run_lift.
  destruct (requests_get source) as [f | e]; simpl in Hfailed.
  - rewrite Hfailed. reflexivity.
  - destruct e; reflexivity.
Qed.

Lemma set_source_frame s item :
  title (set_source s item) = title item
  /\ description (set_source s item) = description item
  /\ publication_date (set_source s item) = publication_date item
  /\ link (set_source s item) = link item
  /\ image_url (set_source s item) = image_url item
  /\ source (set_source s item) = Some s.
Proof. repeat split. Qed.

(** C8: after a fetch that answers 200, the URL adapter returns the feed of
    the XML parser on the response body with every item's source set to the
    source string: same items in the same order, every other field as it
    was. *)
Theorem url_parse_stamps_source c source f feed shown shown' :
  requests_get source = Ok f ->
  status_code f = 200%Z ->
  xml_parse (RssXmlParser_init (text f) (Some (McSink c)))
    (add_message_impl c ("Reaching out to " +:+ source) shown) = (Ok feed, shown') ->
  exists stamped,
    url_parse (RssUrlParser_init source (Some (McSink c))) shown
    = (Ok (mkRssFeed stamped), shown')
    /\ stamped = map (set_source source) (rss_items feed)
    /\ Forall2 (fun item item' =>
                  title item' = title item
                  /\ description item' = description item
                  /\ publication_date item' = publication_date item
                  /\ link item' = link item
                  /\ image_url item' = image_url item
                  /\ RssParse.source item' = Some source)
         (rss_items feed) stamped.
Proof.
  intros Hget Hstatus Hxml.
  exists (map (set_source source) (rss_items feed)). split; [| split].
  - unfold RssParse.url_parse, RssUrlParser_init, RssParser_init.
    cbn [url_mc url_source default from_option id].
    rewrite run_bind. unfold try_except at 1.
    rewrite run_bind, run_add_message, run_bind, run_lift, Hget, Hstatus.
    cbn [Z.eqb Pos.eqb negb]. rewrite run_ret, run_bind.
    unfold RssXmlParser_init, RssParser_init in Hxml |- *.
    cbn [default from_option id] in Hxml |- *.
    rewrite Hxml. reflexivity.
  - reflexivity.
  - induction (rss_items feed) as [| item items IH]; simpl; constructor.
    + apply set_source_frame.
    + exact IH.
Qed.

(** When the XML parser fails on the response body, so does the URL
    adapter, with the same exception. *)
Lemma url_parse_xml_failure c source f e shown shown' :
  requests_get source = Ok f ->
  status_code f = 200%Z ->
  xml_parse (RssXmlParser_init (text f) (Some (McSink c)))
    (add_message_impl c ("Reaching out to " +:+ source) shown) = (Raise e, shown') ->
  url_parse (RssUrlParser_init source (Some (McSink c))) shown = (Raise e, shown').
Proof.
  intros Hget Hstatus Hxml.
  unfold RssParse.url_parse, RssUrlParser_init, RssParser_init.
  cbn [url_mc url_source default from_option id].
  rewrite run_bind. unfold try_except at 1.
  rewrite run_bind, run_add_message, run_bind, run_lift, Hget, Hstatus.
  cbn [Z.eqb Pos.eqb negb]. rewrite run_ret, run_bind.
  unfold RssXmlParser_init, RssParser_init in Hxml |- *.
  cbn [default from_option id] in Hxml |- *.
  rewrite Hxml. reflexivity.
Qed.

(** C9: on a path that does not exist the JSON adapter returns the empty
    feed and raises nothing; on a file it returns whatever the mapper makes
    of the file's text, items that would not pass validation included.
    Neither depends on the sink, given or not. *)
Theorem json_parse_spec file_name mc shown :
  (files file_name = None ->
   json_parse (RssJsonParser_init file_name mc) shown = (Ok (mkRssFeed []), shown))
  /\ (forall rss_json,
        files file_name = Some (Ok rss_json) ->
        json_parse (RssJsonParser_init file_name mc) shown = (from_json rss_json, shown)).
Proof.
  unfold RssParse.json_parse, RssJsonParser_init. cbn [json_file_name].
  split.
  - intros ->. reflexivity.
  - intros rss_json ->. reflexivity.
Qed.

End AdapterFacts.

Lemma url_parse_fetch_failure_witness :
  RssParse.url_parse RssParse.spec_keys Samples.sample_xmltodict_parse
    Samples.sample_sanitize_text Samples.sample_to_date Samples.sample_requests_get
    (RssParse.RssUrlParser_init "not a url"
       (Some (RssParse.McSink RssParse.MESSAGE_CONSUMER_RECORD))) []
  = (Python.Raise (Python.ParsingException "Invalid source URL: not a url"),
     ["Reaching out to not a url"%string;
      "Encountered an error during reading RSS Feed from URL"%string])
  /\ "Invalid source URL: not a url"%string <> "Unable to connect to not a url"%string.
Proof.
  exact (url_parse_fetch_failure RssParse.spec_keys Samples.sample_xmltodict_parse
           Samples.sample_sanitize_text Samples.sample_to_date Samples.sample_requests_get
           RssParse.MESSAGE_CONSUMER_RECORD "not a url" [] eq_refl).
Defined.

(** The other two failures of the sample sources: a 404 and a host that
    cannot be reached. *)
Example url_parse_not_found_and_unreachable :
  (RssParse.url_parse RssParse.spec_keys Samples.sample_xmltodict_parse
     Samples.sample_sanitize_text Samples.sample_to_date Samples.sample_requests_get
     (RssParse.RssUrlParser_init "http://feeds.example/missing"
        (Some (RssParse.McSink RssParse.MESSAGE_CONSUMER_RECORD))) []).1
  = Python.Raise (Python.ParsingException "Unable to connect to http://feeds.example/missing")
  /\ (RssParse.url_parse RssParse.spec_keys Samples.sample_xmltodict_parse
        Samples.sample_sanitize_text Samples.sample_to_date Samples.sample_requests_get
        (RssParse.RssUrlParser_init "http://nowhere.example/"
           (Some (RssParse.McSink RssParse.MESSAGE_CONSUMER_RECORD))) []).1
     = Python.Raise (Python.ParsingException "Unable to connect to http://nowhere.example/").
Proof. split; reflexivity. Qed.

Lemma url_parse_stamps_source_witness :
  exists stamped,
    RssParse.url_parse RssParse.spec_keys Samples.sample_xmltodict_parse
      Samples.sample_sanitize_text Samples.sample_to_date Samples.sample_requests_get
      (RssParse.RssUrlParser_init "http://feeds.example/three"
         (Some (RssParse.McSink RssParse.MESSAGE_CONSUMER_RECORD))) []
    = (Python.Ok (RssParse.mkRssFeed stamped),
       ["Reaching out to http://feeds.example/three"%string;
        "Parsing RSS Feed by elements"%string; "Parsing items info"%string;
        RssParse.SKIPPED; "Parsing finished"%string])
    /\ stamped
       = [RssParse.mkRssItem (Some "T"%string) Python.PNone (Some 1704067200%Z)
            (Python.PStr "L") Python.PNone (Some "http://feeds.example/three"%string);
          RssParse.mkRssItem (Some "V"%string) Python.PNone (Some 1704067200%Z)
            (Python.PStr "M") (Python.PStr "v.png")
            (Some "http://feeds.example/three"%string)].
Proof.
  destruct (url_parse_stamps_source RssParse.spec_keys Samples.sample_xmltodict_parse
              Samples.sample_sanitize_text Samples.sample_to_date
              Samples.sample_requests_get RssParse.MESSAGE_CONSUMER_RECORD
              "http://feeds.example/three"
              {| RssParse.status_code := 200; RssParse.text := Samples.doc_three_items |}
              (RssParse.mkRssFeed
                 [RssParse.mkRssItem (Some "T"%string) Python.PNone (Some 1704067200%Z)
                    (Python.PStr "L") Python.PNone None;
                  RssParse.mkRssItem (Some "V"%string) Python.PNone (Some 1704067200%Z)
                    (Python.PStr "M") (Python.PStr "v.png") None])
              []
              ["Reaching out to http://feeds.example/three"%string;
               "Parsing RSS Feed by elements"%string; "Parsing items info"%string;
               RssParse.SKIPPED; "Parsing finished"%string]
              eq_refl eq_refl eq_refl) as (stamped & Hparse & Hstamped & _).
  exists stamped. split; [exact Hparse | exact Hstamped].
Defined.

Lemma json_parse_spec_witness :
  RssParse.json_parse Samples.sample_files Samples.sample_from_json
    (RssParse.RssJsonParser_init "nowhere.json" None) []
  = (Python.Ok (RssParse.mkRssFeed []), [])
  /\ RssParse.json_parse Samples.sample_files Samples.sample_from_json
       (RssParse.RssJsonParser_init "feed.json" None) []
     = (Python.Ok (RssParse.mkRssFeed [Samples.untitled_item]), [])
  /\ RssParse.validate_correctness Samples.untitled_item = false.
Proof.
  split; [| split].
  - exact (proj1 (json_parse_spec Samples.sample_files Samples.sample_from_json
                    "nowhere.json" None []) eq_refl).
  - exact (proj2 (json_parse_spec Samples.sample_files Samples.sample_from_json
                    "feed.json" None []) "snapshot"%string eq_refl).
  - reflexivity.
Defined.

Lemma xml_parse_not_xml_witness :
  (RssParse.xml_parse RssParse.spec_keys Samples.sample_xmltodict_parse
     Samples.sample_sanitize_text Samples.sample_to_date
     (RssParse.RssXmlParser_init "not a feed"
        (Some (RssParse.McSink RssParse.MESSAGE_CONSUMER_RECORD))) []).1
  = Python.Raise (Python.ParsingException "Source doesn't contain a valid RSS Feed.").
Proof.
  exact (xml_parse_not_xml RssParse.spec_keys Samples.sample_xmltodict_parse
           Samples.sample_sanitize_text Samples.sample_to_date
           RssParse.MESSAGE_CONSUMER_RECORD "not a feed" [] eq_refl).
Defined.

(** ** More on HistoryDict *)

Section HistoryDictInvariants.
Import Python Task2.
Context {K : Type} `{Countable K} {V : Type}.
Implicit Types (self : HistoryDict K V) (calls : list (K * V)).

Lemma slice_from_suffix {A : Type} (start : Z) (l : list A) :
  slice_from start l `suffix_of` l.
Proof. unfold slice_from. apply suffix_drop. Qed.

Lemma set_values_snoc self calls k v :
  set_values self (calls ++ [(k, v)]) = set_value (set_values self calls) k v.
Proof. unfold set_values. rewrite fold_left_app. reflexivity. Qed.

Lemma set_values_history_suffix self calls :
  history (set_values self calls) `suffix_of` (history self ++ calls.*1).
Proof.
  induction calls as [| [k v] calls IH] using rev_ind.
  - simpl. rewrite app_nil_r. reflexivity.
  - rewrite set_values_snoc, fmap_app, app_assoc. simpl.
    etrans; [apply slice_from_suffix |]. apply suffix_app. exact IH.
Qed.

(** With a negative count the slice starts past the one entry there is. *)
Lemma set_values_history_negative self calls :
  (count self < 0)%Z -> history self = [] -> history (set_values self calls) = [].
Proof.
  intros Hneg Hempty. induction calls as [| [k v] calls IH] using rev_ind.
  - exact Hempty.
  - rewrite set_values_snoc. simpl. rewrite IH, set_values_count.
    unfold slice_from. simpl length.
    destruct (Z.ltb_spec (- count self) 0) as [Hlt | _]; [lia |].
    replace (Z.to_nat (Z.min (- count self) (Z.of_nat 1))) with 1 by lia.
    reflexivity.
Qed.

(** The dict after a run of calls: the later call for a key wins, and what
    no call touched is as it was. *)
Theorem set_values_dict self calls :
  dict (set_values self calls) = list_to_map (reverse calls) ∪ dict self.
Proof.
  induction calls as [| [k v] calls IH] using rev_ind.
  - simpl. symmetry. apply (left_id_L ∅ (∪)).
  - rewrite set_values_snoc, reverse_app. simpl.
    rewrite IH, <- insert_union_l. reflexivity.
Qed.

(** What [get_history] answers, for every count: the last [count] keys for
    a positive count, every key for count 0, nothing for a negative one. *)
Theorem get_history_by_count (d : gmap K V) (cnt : option Z) calls :
  get_history (set_values (init d cnt) calls)
  = let c := default 10%Z cnt in
    if (0 <? c)%Z then last_n (Z.to_nat c) calls.*1
    else if (c =? 0)%Z then calls.*1
    else [].
Proof.
  cbv zeta. unfold get_history.
  destruct (Z.ltb_spec 0 (default 10%Z cnt)) as [Hpos | Hle].
  - rewrite set_values_history; [reflexivity | exact Hpos | reflexivity].
  - destruct (Z.eqb_spec (default 10%Z cnt) 0) as [Hzero | Hnz].
    + rewrite set_values_history_zero by exact Hzero. reflexivity.
    + apply set_values_history_negative; [simpl; lia | reflexivity].
Qed.

(** Whatever the count, the history is a run of the most recent keys in
    call order, and every key in it is a key of the dict. *)
Theorem get_history_recent_keys (d : gmap K V) (cnt : option Z) calls :
  let self := set_values (init d cnt) calls in
  get_history self `suffix_of` calls.*1
  /\ Forall (fun key => is_Some (dict self !! key)) (get_history self).
Proof.
  cbv zeta.
  assert (Hsuffix : get_history (set_values (init d cnt) calls) `suffix_of` calls.*1).
  { apply (set_values_history_suffix (init d cnt) calls). }
  split; [exact Hsuffix |].
  apply Forall_forall. intros key Hkey.
  assert (Hin : key ∈ (reverse calls).*1).
  { rewrite fmap_reverse, elem_of_reverse.
    destruct Hsuffix as [older ->]. apply elem_of_app. right. exact Hkey. }
  rewrite set_values_dict.
  destruct ((list_to_map (reverse calls) : gmap K V) !! key) as [value |] eqn:Hlookup.
  - exists value. apply lookup_union_Some_l. exact Hlookup.
  - apply not_elem_of_list_to_map_2 in Hlookup. contradiction.
Qed.

End HistoryDictInvariants.

(** The script at the end of Task2.py. *)
Example task2_script :
  Task2.get_history
    (Task2.set_values (Task2.init ({["foo"%string := 42%Z]} : gmap string Z) None)
       [("a"%string, 43%Z); ("b"%string, 43%Z); ("c"%string, 43%Z); ("d"%string, 43%Z)])
  = ["a"%string; "b"%string; "c"%string; "d"%string].
Proof. reflexivity. Qed.

(** ** HistoryDict and the objects it shares *)

Section HeapFacts.
Import Python.
Context {K : Type} `{Countable K} {V : Type}.
Implicit Types (self : Task2Heap.HistoryDict) (h : Task2Heap.heap K V)
  (pure : Task2.HistoryDict K V) (calls : list (K * V)).

#[local] Abbreviation models := Task2Heap.models.

Lemma heap_set_value_lists self key value h :
  Task2Heap.list_objects (Task2Heap.set_value self key value h).2
  = alter (fun l => l ++ [key]) (Task2Heap.history self) (Task2Heap.list_objects h)
    ++ [slice_from (- Task2Heap.count self)
          (default [] (alter (fun l => l ++ [key]) (Task2Heap.history self)
                         (Task2Heap.list_objects h) !! Task2Heap.history self))]
  /\ Task2Heap.history (Task2Heap.set_value self key value h).1
     = length (Task2Heap.list_objects h)
  /\ Task2Heap.dict (Task2Heap.set_value self key value h).1 = Task2Heap.dict self
  /\ Task2Heap.count (Task2Heap.set_value self key value h).1 = Task2Heap.count self
  /\ Task2Heap.dict_objects (Task2Heap.set_value self key value h).2
     = alter (fun d => <[key := value]> d) (Task2Heap.dict self) (Task2Heap.dict_objects h).
Proof.
  unfold Task2Heap.set_value, Task2Heap.new_list, Task2Heap.read_list. simpl.
  rewrite length_alter. repeat split.
Qed.

Lemma heap_set_values_cons self key value calls h :
  Task2Heap.set_values self ((key, value) :: calls) h
  = Task2Heap.set_values (Task2Heap.set_value self key value h).1 calls
      (Task2Heap.set_value self key value h).2.
Proof.
  unfold Task2Heap.set_values. cbn [fold_left fst snd].
  rewrite <- surjective_pairing. reflexivity.
Qed.

Lemma heap_set_value_models self h pure key value :
  models self h pure ->
  models (Task2Heap.set_value self key value h).1 (Task2Heap.set_value self key value h).2
    (Task2.set_value pure key value).
Proof.
  intros (Hcount & Hhistory & Hdict).
  destruct (heap_set_value_lists self key value h) as (Hl & Hr & Hd & Hc & Hds).
  unfold Task2Heap.models. rewrite Hl, Hr, Hd, Hc, Hds. clear Hl Hr Hd Hc Hds.
  split; [exact Hcount |]. split.
  - rewrite lookup_app_r by (rewrite length_alter; lia).
    rewrite length_alter, Nat.sub_diag. simpl.
    rewrite list_lookup_alter_eq, Hhistory, Hcount. reflexivity.
  - rewrite list_lookup_alter_eq, Hdict. reflexivity.
Qed.

Lemma heap_set_values_models calls : forall self h pure,
  models self h pure ->
  models (Task2Heap.set_values self calls h).1 (Task2Heap.set_values self calls h).2
    (Task2.set_values pure calls).
Proof.
  induction calls as [| [key value] calls IH]; intros self h pure Hmodels.
  - exact Hmodels.
  - rewrite heap_set_values_cons.
    apply (IH _ _ (Task2.set_value pure key value)).
    apply heap_set_value_models. exact Hmodels.
Qed.

Lemma heap_construct_models (d : gmap K V) cnt h :
  models (Task2Heap.construct d cnt h).1.2 (Task2Heap.construct d cnt h).2 (Task2.init d cnt)
  /\ Task2Heap.dict (Task2Heap.construct d cnt h).1.2 = (Task2Heap.construct d cnt h).1.1.
Proof.
  unfold Task2Heap.models, Task2Heap.construct, Task2Heap.init, Task2Heap.new_dict,
    Task2Heap.new_list. simpl.
  repeat split.
  - rewrite lookup_app_r by lia. rewrite Nat.sub_diag. reflexivity.
  - rewrite lookup_app_r by lia. rewrite Nat.sub_diag. reflexivity.
Qed.

Lemma heap_set_values_dict_ref calls : forall self h,
  Task2Heap.dict (Task2Heap.set_values self calls h).1 = Task2Heap.dict self.
Proof.
  induction calls as [| [key value] calls IH]; intros self h; [reflexivity |].
  rewrite heap_set_values_cons, IH. reflexivity.
Qed.

(** Lists that are older than the current history list are out of reach of
    any later call. *)
Lemma heap_set_values_frame calls : forall self h r,
  r < Task2Heap.history self ->
  Task2Heap.history self < length (Task2Heap.list_objects h) ->
  Task2Heap.list_objects (Task2Heap.set_values self calls h).2 !! r
  = Task2Heap.list_objects h !! r.
Proof.
  induction calls as [| [key value] calls IH]; intros self h r Hold Hvalid; [reflexivity |].
  rewrite heap_set_values_cons.
  destruct (heap_set_value_lists self key value h) as (Hl & Hr & _).
  rewrite IH.
  - rewrite Hl, lookup_app_l by (rewrite length_alter; lia).
    apply list_lookup_alter_ne. lia.
  - rewrite Hr. lia.
  - rewrite Hr, Hl, length_app, length_alter. simpl. lia.
Qed.

Lemma heap_set_values_history_mono calls : forall self h,
  Task2Heap.history self < length (Task2Heap.list_objects h) ->
  Task2Heap.history self <= Task2Heap.history (Task2Heap.set_values self calls h).1.
Proof.
  induction calls as [| [key value] calls IH]; intros self h Hvalid; [reflexivity |].
  rewrite heap_set_values_cons.
  destruct (heap_set_value_lists self key value h) as (Hl & Hr & _).
  etrans; [| apply IH].
  - rewrite Hr. lia.
  - rewrite Hr, Hl, length_app, length_alter. simpl. lia.
Qed.

(** The store model and the value model agree: after any calls the list
    behind [get_history] holds the history of the value model, and the dict
    object that the caller created and passed in, the very same object,
    holds the dict of the value model. *)
Theorem heap_model_agrees (d : gmap K V) cnt calls h :
  let built := Task2Heap.construct d cnt h in
  let final := Task2Heap.set_values built.1.2 calls built.2 in
  let pure := Task2.set_values (Task2.init d cnt) calls in
  Task2Heap.list_objects final.2 !! Task2Heap.get_history final.1
  = Some (Task2.get_history pure)
  /\ Task2Heap.dict_objects final.2 !! built.1.1 = Some (Task2.dict pure).
Proof.
  cbv zeta.
  destruct (heap_construct_models d cnt h) as [Hbuilt Href].
  pose proof (heap_set_values_models calls _ _ _ Hbuilt) as (_ & Hhistory & Hdict).
  split; [exact Hhistory |].
  rewrite heap_set_values_dict_ref, Href in Hdict. exact Hdict.
Qed.

(** A list handed out by [get_history] is the object the next [set_value]
    appends to before it moves on to a fresh slice: the caller's list gains
    that one key, also beyond the capacity, and no later call touches
    it. *)
Theorem get_history_result_is_shared (d : gmap K V) cnt calls key value later h :
  let built := Task2Heap.construct d cnt h in
  let before := Task2Heap.set_values built.1.2 calls built.2 in
  let handed_out := Task2Heap.get_history before.1 in
  let after := Task2Heap.set_values before.1 ((key, value) :: later) before.2 in
  Task2Heap.list_objects before.2 !! handed_out
  = Some (Task2.get_history (Task2.set_values (Task2.init d cnt) calls))
  /\ Task2Heap.list_objects after.2 !! handed_out
     = Some (Task2.get_history (Task2.set_values (Task2.init d cnt) calls) ++ [key])
  /\ handed_out < Task2Heap.get_history after.1.
Proof.
  cbv zeta.
  destruct (heap_construct_models d cnt h) as [Hbuilt _].
  pose proof (heap_set_values_models calls _ _ _ Hbuilt) as (_ & Hhistory & _).
  set (before := Task2Heap.set_values _ calls _) in *.
  unfold Task2Heap.get_history in *.
  assert (Hvalid : Task2Heap.history before.1 < length (Task2Heap.list_objects before.2)).
  { apply lookup_lt_is_Some. eexists. exact Hhistory. }
  split; [exact Hhistory |].
  rewrite heap_set_values_cons.
  destruct (heap_set_value_lists before.1 key value before.2) as (Hl & Hr & _).
  split.
  - rewrite heap_set_values_frame.
    + rewrite Hl, lookup_app_l by (rewrite length_alter; lia).
      rewrite list_lookup_alter_eq, Hhistory. reflexivity.
    + rewrite Hr. exact Hvalid.
    + rewrite Hr, Hl, length_app, length_alter. simpl. lia.
  - eapply Nat.lt_le_trans; [| apply heap_set_values_history_mono].
    + rewrite Hr. exact Hvalid.
    + rewrite Hr, Hl, length_app, length_alter. simpl. lia.
Qed.

End HeapFacts.

(** The store at work: with capacity 2, the list handed out after two
    calls holds three keys after the third, while the instance moves on to
    the last two. *)
Example handed_out_list_outgrows_capacity :
  let built := Task2Heap.construct (∅ : gmap string Z) (Some 2%Z)
                 (Task2Heap.mkHeap [] []) in
  let before := Task2Heap.set_values built.1.2
                  [("a"%string, 1%Z); ("b"%string, 2%Z)] built.2 in
  let handed_out := Task2Heap.get_history before.1 in
  let after := Task2Heap.set_value before.1 "c"%string 3%Z before.2 in
  Task2Heap.read_list handed_out before.2 = ["a"%string; "b"%string]
  /\ Task2Heap.read_list handed_out after.2 = ["a"%string; "b"%string; "c"%string]
  /\ Task2Heap.read_list (Task2Heap.get_history after.1) after.2
     = ["b"%string; "c"%string].
Proof. repeat split. Qed.

(** ** What every returned feed satisfies *)

Section FeedInvariants.
Import Python RssParse RssSpec.
Context (keys : rss_keys).
Context (xmltodict_parse : string -> result pyval).
Context (sanitize_text : pyval -> option string).
Context (to_date : pyval -> option datetime).
Context (requests_get : string -> result Response).

#[local] Abbreviation parse_item := (RssParse.parse_item keys sanitize_text to_date).
#[local] Abbreviation parse_items_loop :=
  (RssParse.parse_items_loop keys sanitize_text to_date).
#[local] Abbreviation xml_parse :=
  (RssParse.xml_parse keys xmltodict_parse sanitize_text to_date).
#[local] Abbreviation url_parse :=
  (RssParse.url_parse keys xmltodict_parse sanitize_text to_date requests_get).

Lemma result_bind_ok_inv {A B : Type} (r : result A) (f : A -> result B) b :
  r ≫= f = Ok b -> exists a, r = Ok a /\ f a = Ok b.
Proof. destruct r as [a | e]; [eauto | discriminate]. Qed.

Lemma run_bind_ok_inv {A B : Type} (m : M A) (f : A -> M B) shown b shown' :
  (m ≫= f) shown = (Ok b, shown') ->
  exists a shown1, m shown = (Ok a, shown1) /\ f a shown1 = (Ok b, shown').
Proof.
  rewrite run_bind. destruct (m shown) as [[a | e] shown1]; [eauto | discriminate].
Qed.

(** The XML parser never gives an item a source. *)
Lemma parse_item_source node item : parse_item node = Ok item -> source item = None.
Proof.
  unfold RssParse.parse_item. cbv zeta. intros Hitem.
  repeat (apply result_bind_ok_inv in Hitem as (? & _ & Hitem)).
  inversion Hitem. reflexivity.
Qed.

(** Whatever the loop adds to its result has passed validation. *)
Lemma parse_items_loop_added mc nodes : forall res shown items shown',
  parse_items_loop mc nodes res shown = (Ok items, shown') ->
  exists added,
    items = res ++ added
    /\ Forall (fun item => validate_correctness item = true /\ source item = None) added.
Proof.
  induction nodes as [| node nodes IH]; intros res shown items shown' Hloop.
  - inversion Hloop. exists []. rewrite app_nil_r. split; constructor.
  - simpl RssParse.parse_items_loop in Hloop.
    apply run_bind_ok_inv in Hloop as (item & shown1 & Hitem & Hloop).
    rewrite run_lift in Hitem. inversion Hitem as [[Hparsed Hshown]]. clear Hitem.
    destruct (validate_correctness item) eqn:Hvalid.
    + apply IH in Hloop as (added & -> & Hadded).
      exists (item :: added). rewrite <- app_assoc. split; [reflexivity |].
      constructor; [| exact Hadded].
      split; [exact Hvalid | exact (parse_item_source node item Hparsed)].
    + apply run_bind_ok_inv in Hloop as (_ & shown2 & _ & Hloop).
      apply IH in Hloop. exact Hloop.
Qed.

(** A successful XML parse went through the loop. *)
Lemma xml_parse_ok_inv self shown feed shown' :
  xml_parse self shown = (Ok feed, shown') ->
  exists elements shown1 shown2,
    parse_items_loop (xml_mc self) elements [] shown1 = (Ok (rss_items feed), shown2).
Proof.
  unfold RssParse.xml_parse. intros Hparse.
  apply run_bind_ok_inv in Hparse as (_ & s1 & _ & Hparse).
  apply run_bind_ok_inv in Hparse as (feed_dict & s2 & _ & Hparse).
  apply run_bind_ok_inv in Hparse as (_ & s3 & _ & Hparse).
  apply run_bind_ok_inv in Hparse as (items & s4 & Hitems & Hparse).
  apply run_bind_ok_inv in Hparse as (_ & s5 & _ & Hparse).
  rewrite run_ret in Hparse. inversion Hparse; subst. simpl rss_items.
  unfold RssParse.parse_items in Hitems.
  apply run_bind_ok_inv in Hitems as (raw & s6 & _ & Hitems).
  apply run_bind_ok_inv in Hitems as (elements & s7 & _ & Hitems).
  eauto.
Qed.

(** Every item of a feed that [RssXmlParser.parse] returns has passed the
    validator and carries no source; every item of a feed that
    [RssUrlParser.parse] returns has passed the validator and carries the
    adapter's source.  This holds for every document, every decoder answer
    and every sink. *)
Theorem returned_items_are_valid :
  (forall self shown feed shown',
      xml_parse self shown = (Ok feed, shown') ->
      Forall (fun item => validate_correctness item = true /\ source item = None)
        (rss_items feed))
  /\ (forall self shown feed shown',
        url_parse self shown = (Ok feed, shown') ->
        Forall (fun item => validate_correctness item = true
                            /\ source item = Some (url_source self))
          (rss_items feed)).
Proof.
  assert (Hxml : forall self shown feed shown',
             xml_parse self shown = (Ok feed, shown') ->
             Forall (fun item => validate_correctness item = true /\ source item = None)
               (rss_items feed)).
  { intros self shown feed shown' Hparse.
    apply xml_parse_ok_inv in Hparse as (elements & s1 & s2 & Hloop).
    apply parse_items_loop_added in Hloop as (added & Hitems & Hadded).
    rewrite Hitems. exact Hadded. }
  split; [exact Hxml |].
  intros self shown feed shown' Hparse.
  unfold RssParse.url_parse in Hparse.
  apply run_bind_ok_inv in Hparse as (body & s1 & _ & Hparse).
  apply run_bind_ok_inv in Hparse as (parsed & s2 & Hparsed & Hparse).
  rewrite run_ret in Hparse. inversion Hparse; subst. simpl rss_items.
  apply Hxml in Hparsed. clear Hparse.
  induction Hparsed as [| item items [Hvalid _] _ IH]; simpl; constructor.
  - split; [exact Hvalid | reflexivity].
  - exact IH.
Qed.

(** Of the failures of the decode-and-root step, [parse] turns exactly
    [ExpatError] and [KeyError] into [ParsingException]; any other exception
    of that step reaches the caller as it is.  Either way the sink has heard
    the first progress message only. *)
Theorem xml_parse_decode_step_failure c doc e shown :
  (tree ← xmltodict_parse doc; getitem tree (RSS_ROOT keys)) = Raise e ->
  xml_parse (RssXmlParser_init doc (Some (McSink c))) shown
  = (Raise match e with
           | ExpatError | KeyError _ => ParsingException NOT_A_FEED
           | _ => e
           end,
     deliver c ["Parsing RSS Feed by elements"%string] shown).
Proof.
  intros Hstep.
  unfold RssParse.xml_parse, RssXmlParser_init, RssParser_init.
  cbn [xml_mc xml_feed default from_option id].
  rewrite run_bind, run_add_message, run_bind.
  erewrite run_try_except_raise; cycle 1.
  { rewrite run_lift, Hstep. reflexivity. }
  destruct e; reflexivity.
Qed.

(** A failure to find the channel or its item entry is not converted: the
    exception of the lookup ([KeyError] for a missing key, [TypeError] for a
    channel that is not a mapping) is what [parse] raises, after the second
    progress message. *)
Theorem xml_parse_items_lookup_failure c doc feed_dict e shown :
  (tree ← xmltodict_parse doc; getitem tree (RSS_ROOT keys)) = Ok feed_dict ->
  (channel ← getitem feed_dict (RSS_CHANNEL keys); getitem channel (RSS_ITEMS keys))
  = Raise e ->
  xml_parse (RssXmlParser_init doc (Some (McSink c))) shown
  = (Raise e,
     deliver c ["Parsing RSS Feed by elements"%string; "Parsing items info"%string] shown).
Proof.
  intros Hroot Hitems.
  unfold RssParse.xml_parse, RssXmlParser_init, RssParser_init.
  cbn [xml_mc xml_feed default from_option id].
  rewrite run_bind, run_add_message, run_bind.
  erewrite run_try_except_ok; cycle 1.
  { rewrite run_lift, Hroot. reflexivity. }
  rewrite run_bind, run_add_message, run_bind.
  unfold RssParse.parse_items.
  rewrite run_bind, run_lift, Hitems. reflexivity.
Qed.

(** An item entry that is not a list is iterated all the same: [None]
    cannot be iterated ([TypeError]); a mapping yields its keys and a text
    its characters, on the first of which the extraction fails
    ([AttributeError]); only an empty mapping or text passes, as a feed
    without items. *)
Theorem xml_parse_item_entry_not_a_list c doc feed_dict entry shown :
  (tree ← xmltodict_parse doc; getitem tree (RSS_ROOT keys)) = Ok feed_dict ->
  (channel ← getitem feed_dict (RSS_CHANNEL keys); getitem channel (RSS_ITEMS keys))
  = Ok entry ->
  let started := ["Parsing RSS Feed by elements"%string; "Parsing items info"%string] in
  let outcome := xml_parse (RssXmlParser_init doc (Some (McSink c))) shown in
  match entry with
  | PList _ => True
  | PNone => outcome = (Raise TypeError, deliver c started shown)
  | PStr EmptyString | PDict [] =>
      outcome = (Ok (mkRssFeed []),
                 deliver c (started ++ ["Parsing finished"%string]) shown)
  | PStr (String _ _) | PDict (_ :: _) =>
      outcome = (Raise AttributeError, deliver c started shown)
  end.
Proof.
  intros Hroot Hentry. cbv zeta.
  unfold RssParse.xml_parse, RssXmlParser_init, RssParser_init.
  cbn [xml_mc xml_feed default from_option id].
  rewrite run_bind, run_add_message, run_bind.
  erewrite run_try_except_ok; cycle 1.
  { rewrite run_lift, Hroot. reflexivity. }
  rewrite run_bind, run_add_message, run_bind.
  unfold RssParse.parse_items.
  rewrite run_bind, run_lift, Hentry, run_bind, run_lift.
  destruct entry as [| [| a s] | l | [| [key value] d]]; try reflexivity; exact I.
Qed.

End FeedInvariants.

Lemma returned_items_are_valid_witness :
  Forall (fun item => RssParse.validate_correctness item = true
                      /\ RssParse.source item = None)
    [RssParse.mkRssItem (Some "T"%string) Python.PNone (Some 1704067200%Z)
       (Python.PStr "L") Python.PNone None;
     RssParse.mkRssItem (Some "V"%string) Python.PNone (Some 1704067200%Z)
       (Python.PStr "M") (Python.PStr "v.png") None]
  /\ Forall (fun item => RssParse.validate_correctness item = true
                         /\ RssParse.source item = Some "http://feeds.example/three"%string)
       [RssParse.mkRssItem (Some "T"%string) Python.PNone (Some 1704067200%Z)
          (Python.PStr "L") Python.PNone (Some "http://feeds.example/three"%string);
        RssParse.mkRssItem (Some "V"%string) Python.PNone (Some 1704067200%Z)
          (Python.PStr "M") (Python.PStr "v.png")
          (Some "http://feeds.example/three"%string)].
Proof.
  split.
  - exact (proj1 (returned_items_are_valid RssParse.spec_keys
                    Samples.sample_xmltodict_parse Samples.sample_sanitize_text
                    Samples.sample_to_date Samples.sample_requests_get)
             (RssParse.RssXmlParser_init Samples.doc_three_items
                (Some (RssParse.McSink RssParse.MESSAGE_CONSUMER_NOOP)))
             [] _ [] eq_refl).
  - exact (proj2 (returned_items_are_valid RssParse.spec_keys
                    Samples.sample_xmltodict_parse Samples.sample_sanitize_text
                    Samples.sample_to_date Samples.sample_requests_get)
             (RssParse.RssUrlParser_init "http://feeds.example/three"
                (Some (RssParse.McSink RssParse.MESSAGE_CONSUMER_NOOP)))
             [] _ [] eq_refl).
Defined.

Lemma xml_parse_decode_step_failure_witness :
  RssParse.xml_parse RssParse.spec_keys Samples.sample_xmltodict_parse
    Samples.sample_sanitize_text Samples.sample_to_date
    (RssParse.RssXmlParser_init "<rss><channel>"
       (Some (RssParse.McSink RssParse.MESSAGE_CONSUMER_RECORD))) []
  = (Python.Raise (Python.ParsingException "Source doesn't contain a valid RSS Feed."),
     ["Parsing RSS Feed by elements"%string]).
Proof.
  exact (xml_parse_decode_step_failure RssParse.spec_keys Samples.sample_xmltodict_parse
           Samples.sample_sanitize_text Samples.sample_to_date
           RssParse.MESSAGE_CONSUMER_RECORD "<rss><channel>" Python.ExpatError []
           eq_refl).
Defined.

Lemma xml_parse_items_lookup_failure_witness :
  RssParse.xml_parse RssParse.spec_keys Samples.sample_xmltodict_parse
    Samples.sample_sanitize_text Samples.sample_to_date
    (RssParse.RssXmlParser_init Samples.doc_no_channel
       (Some (RssParse.McSink RssParse.MESSAGE_CONSUMER_RECORD))) []
  = (Python.Raise (Python.KeyError "channel"),
     ["Parsing RSS Feed by elements"%string; "Parsing items info"%string]).
Proof.
  exact (xml_parse_items_lookup_failure RssParse.spec_keys Samples.sample_xmltodict_parse
           Samples.sample_sanitize_text Samples.sample_to_date
           RssParse.MESSAGE_CONSUMER_RECORD Samples.doc_no_channel
           (Python.PDict [("title"%string, Python.PStr "t")])
           (Python.KeyError "channel") [] eq_refl eq_refl).
Defined.

Lemma xml_parse_item_entry_not_a_list_witness :
  RssParse.xml_parse RssParse.spec_keys Samples.sample_xmltodict_parse
    Samples.sample_sanitize_text Samples.sample_to_date
    (RssParse.RssXmlParser_init Samples.doc_one_item
       (Some (RssParse.McSink RssParse.MESSAGE_CONSUMER_RECORD))) []
  = (Python.Raise Python.AttributeError,
     ["Parsing RSS Feed by elements"%string; "Parsing items info"%string]).
Proof.
  exact (xml_parse_item_entry_not_a_list RssParse.spec_keys Samples.sample_xmltodict_parse
           Samples.sample_sanitize_text Samples.sample_to_date
           RssParse.MESSAGE_CONSUMER_RECORD Samples.doc_one_item
           (Python.PDict [("channel"%string, Python.PDict [("item"%string, Samples.node_T)])])
           Samples.node_T [] eq_refl eq_refl).
Defined.

Lemma url_parse_xml_failure_witness :
  RssParse.url_parse RssParse.spec_keys Samples.sample_xmltodict_parse
    Samples.sample_sanitize_text Samples.sample_to_date MoreSamples.requests_get_html
    (RssParse.RssUrlParser_init "http://pages.example/index.html"
       (Some (RssParse.McSink RssParse.MESSAGE_CONSUMER_RECORD))) []
  = (Python.Raise (Python.ParsingException "Source doesn't contain a valid RSS Feed."),
     ["Reaching out to http://pages.example/index.html"%string;
      "Parsing RSS Feed by elements"%string]).
Proof.
  exact (url_parse_xml_failure RssParse.spec_keys Samples.sample_xmltodict_parse
           Samples.sample_sanitize_text Samples.sample_to_date
           MoreSamples.requests_get_html RssParse.MESSAGE_CONSUMER_RECORD
           "http://pages.example/index.html"
           {| RssParse.status_code := 200; RssParse.text := "<html>" |}
           (Python.ParsingException "Source doesn't contain a valid RSS Feed.")
           [] _ eq_refl eq_refl eq_refl).
Defined.

Lemma parse_image_direct_field_witness :
  RssParse.parse_image RssParse.spec_keys MoreSamples.node_image_and_null_media
  = Python.Ok (Python.PStr "i.png").
Proof.
  exact (parse_image_direct_field RssParse.spec_keys
           [("image"%string, Python.PStr "i.png"); ("media:content"%string, Python.PNone)]
           (Python.PStr "i.png") eq_refl eq_refl).
Defined.

Lemma parse_image_raises_witness :
  RssParse.parse_image RssParse.spec_keys Samples.node_null_media
  = Python.Raise Python.AttributeError.
Proof.
  exact (parse_image_raises RssParse.spec_keys [("media:content"%string, Python.PNone)]
           eq_refl).
Defined.
